(** * Portfolio tool: scoring engine, price router and metrics pipeline

    A shallow embedding of [portfolio_tool.py].  Numbers are the values a
    float64 column can hold: a finite value, taken as the exact rational it
    denotes, one of the two infinities, or NaN.  Comparisons against the
    literals of the program are exact on that reading; arithmetic is carried
    out without rounding to 53 bits and zero carries no sign.  Integer
    columns are read as floats, so the wrap-around of an int64 product is
    outside the model, and rounding to decimals is taken on the exact value,
    where the program scales in doubles first and a value next to a tie can
    go the other way.  Strings are ASCII.

    Where the order of a floating-point sum matters, the columns are read a
    second time in IEEE double precision ([double_cash_frame]). *)

From Stdlib Require Import PrimFloat SpecFloat FloatOps.
From Stdlib Require Import QArith Qabs ZArith Lia Lqa Ascii String.
From stdpp Require Import gmap strings list.
From stdpp Require Import sorting.

Local Open Scope string_scope.

(** ** Float values *)

Inductive pyfloat : Type :=
  | Fin (q : Q)
  | PInf
  | NInf
  | NaN.

Arguments Fin q%_Q.

Definition Qltb (a b : Q) : bool := negb (Qle_bool b a).

Definition is_nan (x : pyfloat) : bool :=
  match x with NaN => true | _ => false end.

Definition is_inf (x : pyfloat) : bool :=
  match x with PInf | NInf => true | _ => false end.

Definition is_finite (x : pyfloat) : bool :=
  match x with Fin _ => true | _ => false end.

(** [x < y] on floats: false as soon as one side is NaN. *)
Definition flt (x y : pyfloat) : bool :=
  match x, y with
  | NaN, _ | _, NaN => false
  | Fin a, Fin b => Qltb a b
  | NInf, NInf => false
  | NInf, _ => true
  | _, NInf => false
  | PInf, _ => false
  | Fin _, PInf => true
  end.

Definition fgt (x y : pyfloat) : bool := flt y x.

(** [bool(x)] for a float: every value but zero is true, NaN included. *)
Definition float_truthy (x : pyfloat) : bool :=
  match x with
  | Fin q => negb (Qeq_bool q 0)
  | _ => true
  end.

(** A cell that holds a float or [None].  A fundamentals cell that was
    [None] in the dictionary may read NaN once the frame has been built;
    both values are covered. *)
Definition pyval : Type := option pyfloat.

(** [bool(v)]: [None] is false. *)
Definition truthy (v : pyval) : bool :=
  match v with
  | None => false
  | Some x => float_truthy x
  end.

(** [v and test(v)]: the right operand is evaluated only when [v] is true,
    so a [None] never reaches the comparison. *)
Definition and_then (v : pyval) (test : pyfloat -> bool) : bool :=
  match v with
  | None => false
  | Some x => float_truthy x && test x
  end.

(** ** Rows *)

Record Holding : Type := mkHolding {
  asset_type : string;
  ticker : string;
  shares : pyfloat;
  cost_basis : pyfloat
}.

Record Fundamentals : Type := mkFundamentals {
  pe : pyval;
  forward_pe : pyval;
  ps : pyval;
  profit_margin : pyval;
  revenue_growth : pyval;
  eps_growth : pyval;
  beta : pyval;
  analyst_score : pyval;
  target_price : pyval
}.

(** A row of the frame once metrics and fundamentals have been attached. *)
Record Row : Type := mkRow {
  holding : Holding;
  current_price : pyfloat;
  market_value : pyfloat;
  cost_value : pyfloat;
  pl_dollar : pyfloat;
  pl_pct : pyfloat;
  weight_pct : pyfloat;
  fund : Fundamentals
}.

(** A row with the three columns the scoring block adds. *)
Record ScoredRow : Type := mkScoredRow {
  row : Row;
  score : Z;
  decision : string;
  insights : string
}.

(** ** Scoring engine *)

Definition score_position (row : Row) : Z :=
  let score := 0%Z in
  let score := if fgt (pl_pct row) (Fin 80) then (score - 1)%Z else score in
  let score := if fgt (weight_pct row) (Fin 7) then (score - 1)%Z else score in
  let score := if flt (pl_pct row) (Fin (-20)) then (score - 1)%Z else score in
  let score :=
    if and_then (pe (fund row)) (fun x => fgt x (Fin 40))
    then (score - 1)%Z else score in
  let score :=
    if and_then (forward_pe (fund row)) (fun x => flt x (Fin 20))
    then (score + 1)%Z else score in
  let score :=
    if and_then (analyst_score (fund row)) (fun x => flt x (Fin 2.5))
    then (score + 1)%Z else score in
  score.

Definition decision_label (score : Z) : string :=
  if (score >=? 2)%Z then "Strong Buy"
  else if (score =? 1)%Z then "Buy / Hold"
  else if (score =? 0)%Z then "Review"
  else if (score =? -1)%Z then "Trim"
  else "Sell".

(** [sep.join(l)] *)
Fixpoint join (sep : string) (l : list string) : string :=
  match l with
  | [] => ""
  | [s] => s
  | s :: rest => s ++ sep ++ join sep rest
  end.

(** [insights.append(phrase)] when [c] holds. *)
Definition append_if (c : bool) (phrase : string) (insights : list string)
  : list string :=
  if c then insights ++ [phrase] else insights.

Definition build_insight (row : Row) : string :=
  let insights := [] in
  let insights :=
    append_if (fgt (pl_pct row) (Fin 80)) "Large unrealized gain" insights in
  let insights :=
    append_if (flt (pl_pct row) (Fin (-20))) "Large loss" insights in
  let insights :=
    append_if (fgt (weight_pct row) (Fin 7)) "High concentration" insights in
  let insights :=
    append_if (and_then (pe (fund row)) (fun x => fgt x (Fin 40)))
      "High valuation" insights in
  let insights :=
    append_if (and_then (analyst_score (fund row)) (fun x => flt x (Fin 2)))
      "Analysts bullish" insights in
  match insights with
  | [] => "Stable"
  | _ => join "; " insights
  end.

(** ** Float arithmetic, as numpy carries it out on a column

    Division by zero raises nothing: it yields an infinity or NaN. *)

Definition fneg (x : pyfloat) : pyfloat :=
  match x with
  | Fin q => Fin (- q)
  | PInf => NInf
  | NInf => PInf
  | NaN => NaN
  end.

Definition fadd (x y : pyfloat) : pyfloat :=
  match x, y with
  | NaN, _ | _, NaN => NaN
  | Fin a, Fin b => Fin (a + b)
  | PInf, NInf | NInf, PInf => NaN
  | PInf, _ | _, PInf => PInf
  | NInf, _ | _, NInf => NInf
  end.

Definition fsub (x y : pyfloat) : pyfloat := fadd x (fneg y).

(** The infinity carrying the sign of [q], NaN for zero. *)
Definition signed_inf (q : Q) : pyfloat :=
  if Qeq_bool q 0 then NaN else if Qltb 0 q then PInf else NInf.

Definition fmul (x y : pyfloat) : pyfloat :=
  match x, y with
  | NaN, _ | _, NaN => NaN
  | Fin a, Fin b => Fin (a * b)
  | PInf, Fin b | Fin b, PInf => signed_inf b
  | NInf, Fin b | Fin b, NInf => signed_inf (- b)
  | PInf, PInf | NInf, NInf => PInf
  | PInf, NInf | NInf, PInf => NInf
  end.

(** [x / y]: a zero divisor gives the infinity with the sign of the
    dividend, and NaN for [0 / 0]. *)
Definition fdiv (x y : pyfloat) : pyfloat :=
  match x, y with
  | NaN, _ | _, NaN => NaN
  | Fin a, Fin b => if Qeq_bool b 0 then signed_inf a else Fin (a / b)
  | Fin _, (PInf | NInf) => Fin 0
  | PInf, Fin b => if Qltb b 0 then NInf else PInf
  | NInf, Fin b => if Qltb b 0 then PInf else NInf
  | (PInf | NInf), (PInf | NInf) => NaN
  end.

(** [Series.sum(skipna=True)]: NaN cells are left out, the empty sum is 0. *)
Definition sum_skipna (col : list pyfloat) : pyfloat :=
  fold_left fadd (filter (fun x => is_nan x = false) col) (Fin 0).

(** Round half to even, the rule of [numpy.rint]. *)
Definition rint (q : Q) : Z :=
  let n := Qnum q in
  let d := Zpos (Qden q) in
  let f := (n / d)%Z in
  let r := (n mod d)%Z in
  if (2 * r <? d)%Z then f
  else if (d <? 2 * r)%Z then (f + 1)%Z
  else if Z.even f then f else (f + 1)%Z.

(** Rounding a finite value to [decimals] places: scale, round to the
    nearest integer, scale back. *)
Definition round_dec (decimals : nat) (q : Q) : Q :=
  let scale := inject_Z (10 ^ Z.of_nat decimals) in
  inject_Z (rint (q * scale)) / scale.

(** [Series.round(decimals)] on one cell. *)
Definition around (decimals : nat) (x : pyfloat) : pyfloat :=
  match x with
  | Fin q => Fin (round_dec decimals q)
  | _ => x
  end.

(** ** Exceptions *)

Inductive exn : Type :=
  | ValueError (msg : string)
  | LibraryError (msg : string).

Inductive result (A : Type) : Type :=
  | Ok (a : A)
  | Raise (e : exn).

Arguments Ok {A} a.
Arguments Raise {A} e.

#[export] Instance result_ret : MRet result := fun A a => Ok a.
#[export] Instance result_bind : MBind result := fun A B f m =>
  match m with
  | Ok a => f a
  | Raise e => Raise e
  end.

(** [try: body / except: handler] with a bare [except], which catches
    every exception. *)
Definition try_except {A : Type} (body handler : result A) : result A :=
  match body with
  | Ok a => Ok a
  | Raise _ => handler
  end.

(** [DataFrame.apply(f, axis=1)]: [f] runs on the rows in order and the
    first exception leaves the call. *)
Fixpoint apply_rows {A B : Type} (f : A -> result B) (rows : list A)
  : result (list B) :=
  match rows with
  | [] => Ok []
  | r :: rest =>
      y ← f r;
      ys ← apply_rows f rest;
      mret (y :: ys)
  end.

(** The ValueError of an assignment that puts a whole frame into one
    column; the wording is the library's. *)
Definition frame_to_column_message : string :=
  "Cannot set a DataFrame with multiple columns to the single column current_price".

(** [frame[col] = frame.apply(f, axis=1)]: on a frame without rows [apply]
    hands back an empty frame instead of a column of results, and the
    assignment of that frame to one column raises ValueError. *)
Definition assign_apply {A B : Type} (f : A -> result B) (rows : list A)
  : result (list B) :=
  match rows with
  | [] => Raise (ValueError frame_to_column_message)
  | _ => apply_rows f rows
  end.

(** ** ASCII case folding: [str.lower] and [str.upper] *)

Definition lower_char (c : ascii) : ascii :=
  let n := nat_of_ascii c in
  if (65 <=? n)%nat && (n <=? 90)%nat then ascii_of_nat (n + 32) else c.

Definition upper_char (c : ascii) : ascii :=
  let n := nat_of_ascii c in
  if (97 <=? n)%nat && (n <=? 122)%nat then ascii_of_nat (n - 32) else c.

Fixpoint map_string (f : ascii -> ascii) (s : string) : string :=
  match s with
  | EmptyString => EmptyString
  | String c rest => String (f c) (map_string f rest)
  end.

Definition lower : string -> string := map_string lower_char.
Definition upper : string -> string := map_string upper_char.

(** ** Prices and fundamentals *)

Definition fetch_cd_price (row : Holding) : pyfloat :=
  let cusip := upper (ticker row) in
  if String.eqb cusip "BANKOFNY" then fdiv (Fin 99.632) (Fin 100.0)
  else cost_basis row.

Definition empty_fundamentals : Fundamentals :=
  {| pe := None; forward_pe := None; ps := None; profit_margin := None;
     revenue_growth := None; eps_growth := None; beta := None;
     analyst_score := None; target_price := None |}.

Section Oracles.

(** [yf.Ticker(sym).history(period="1d")]: the call may raise; when it
    returns, [None] stands for an empty frame and [Some p] for the last
    value of its Close column. *)
Variable history : string -> result (option pyfloat).

(** [yf.Ticker(sym).info]: a dictionary, or an exception. *)
Variable info_of : string -> result (gmap string pyfloat).

Definition fetch_stock_price (ticker : string) : result pyfloat :=
  hist ← history ticker;
  match hist with
  | None => Raise (ValueError ("No price data returned for STOCK " ++ ticker))
  | Some close => Ok close
  end.

Definition fetch_crypto_price (symbol : string) : result pyfloat :=
  hist ← history (symbol ++ "-USD");
  match hist with
  | None => Raise (ValueError ("No price data returned for CRYPTO " ++ symbol))
  | Some close => Ok close
  end.

Definition fetch_price (row : Holding) : result pyfloat :=
  let atype := lower (asset_type row) in
  let t := ticker row in
  if String.eqb atype "stock" then fetch_stock_price t
  else if String.eqb atype "crypto" then fetch_crypto_price t
  else if String.eqb atype "cd" || String.eqb atype "bond"
    then Ok (fetch_cd_price row)
  else if String.eqb atype "cash" then Ok (Fin 1.0)
  else Raise (ValueError ("Unknown asset type: " ++ atype)).

Definition fetch_fundamentals (ticker : string) : result Fundamentals :=
  info ← info_of ticker;
  mret {| pe := info !! "trailingPE";
          forward_pe := info !! "forwardPE";
          ps := info !! "priceToSalesTrailing12Months";
          profit_margin := info !! "profitMargins";
          revenue_growth := info !! "revenueGrowth";
          eps_growth := info !! "earningsQuarterlyGrowth";
          beta := info !! "beta";
          analyst_score := info !! "recommendationMean";
          target_price := info !! "targetMeanPrice" |}.

Definition safe_fundamentals (row : Holding) : result Fundamentals :=
  if negb (String.eqb (lower (asset_type row)) "stock") then
    mret empty_fundamentals
  else
    try_except (fetch_fundamentals (ticker row)) (mret empty_fundamentals).

(** What [safe_fundamentals] hands back for a holding. *)
Definition fundamentals_of (h : Holding) : Fundamentals :=
  match safe_fundamentals h with
  | Ok f => f
  | Raise _ => empty_fundamentals
  end.

(** *** The frame

    Column expressions of the program are elementwise, so the cells of a
    row are computed from that row's own cells; [total_value] is the one
    quantity taken over the whole column. *)

Definition core_metrics (total_value : pyfloat) (h : Holding)
    (price : pyfloat) (f : Fundamentals) : Row :=
  let market_value := fmul (shares h) price in
  let cost_value := fmul (shares h) (cost_basis h) in
  let pl_dollar := fsub market_value cost_value in
  let pl_pct := fmul (fdiv pl_dollar cost_value) (Fin 100) in
  let weight_pct := fmul (fdiv market_value total_value) (Fin 100) in
  mkRow h price market_value cost_value pl_dollar pl_pct weight_pct f.

Definition add_scores (r : Row) : ScoredRow :=
  let score := score_position r in
  let decision := decision_label score in
  let insights := build_insight r in
  mkScoredRow r score decision insights.

(** The frame as it stands before the rounding block. *)
Definition scored_frame (portfolio : list Holding)
  : result (list ScoredRow) :=
  current_price ← assign_apply fetch_price portfolio;
  let market_value :=
    zip_with (fun h p => fmul (shares h) p) portfolio current_price in
  let total_value := sum_skipna market_value in
  fundamentals ← apply_rows safe_fundamentals portfolio;
  let frame :=
    zip_with (fun hp f => core_metrics total_value hp.1 hp.2 f)
      (zip portfolio current_price) fundamentals in
  mret (map add_scores frame).

Definition round_columns (sr : ScoredRow) : ScoredRow :=
  let r := row sr in
  let h := holding r in
  let h' := mkHolding (asset_type h) (ticker h) (around 3 (shares h))
              (cost_basis h) in
  let r' := mkRow h' (around 2 (current_price r)) (around 2 (market_value r))
              (around 2 (cost_value r)) (around 2 (pl_dollar r))
              (around 2 (pl_pct r)) (around 2 (weight_pct r)) (fund r) in
  mkScoredRow r' (score sr) (decision sr) (insights sr).

Definition load_and_process_portfolio (portfolio : list Holding)
  : result (list ScoredRow) :=
  frame ← scored_frame portfolio;
  mret (map round_columns frame).

End Oracles.

(** ** The columns in double precision

    The same column expressions on IEEE doubles, for a portfolio of cash:
    the price is 1.0, the cost basis is 1.0 and there are no fundamentals.
    The total is summed from the first row to the last. *)

Local Set Warnings "-inexact-float".







(** ** The rules as the specification words them

    [present_and] reads "present and test" with presence meaning "not
    [None]": the comparison alone decides for every float, zero included.
    [nonzero_and] adds the requirement that the float is not zero. *)

Definition contribution (c : bool) (delta : Z) : Z := if c then delta else 0%Z.

Definition present_and (v : pyval) (test : pyfloat -> bool) : bool :=
  match v with
  | None => false
  | Some x => test x
  end.

Definition is_zero (x : pyfloat) : bool :=
  match x with
  | Fin q => Qeq_bool q 0
  | _ => false
  end.

Definition nonzero_and (v : pyval) (test : pyfloat -> bool) : bool :=
  match v with
  | None => false
  | Some x => if is_zero x then false else test x
  end.

Section Rules.

(** How a condition on a fundamentals field is read. *)
Variable field_and : pyval -> (pyfloat -> bool) -> bool.

Definition score_sum (row : Row) : Z :=
  (contribution (fgt (pl_pct row) (Fin 80)) (-1)
   + contribution (fgt (weight_pct row) (Fin 7)) (-1)
   + contribution (flt (pl_pct row) (Fin (-20))) (-1)
   + contribution (field_and (pe (fund row)) (fun x => fgt x (Fin 40))) (-1)
   + contribution (field_and (forward_pe (fund row)) (fun x => flt x (Fin 20))) 1
   + contribution
       (field_and (analyst_score (fund row)) (fun x => flt x (Fin 2.5))) 1)%Z.

Definition insight_table (row : Row) : list (bool * string) :=
  [ (fgt (pl_pct row) (Fin 80), "Large unrealized gain");
    (flt (pl_pct row) (Fin (-20)), "Large loss");
    (fgt (weight_pct row) (Fin 7), "High concentration");
    (field_and (pe (fund row)) (fun x => fgt x (Fin 40)), "High valuation");
    (field_and (analyst_score (fund row)) (fun x => flt x (Fin 2)),
     "Analysts bullish") ].

Definition matched (table : list (bool * string)) : list string :=
  omap (fun cp : bool * string => if cp.1 then Some cp.2 else None) table.

Definition insight_of_table (row : Row) : string :=
  match matched (insight_table row) with
  | [] => "Stable"
  | phrases => join "; " phrases
  end.

End Rules.

Definition five_labels : list string :=
  ["Strong Buy"; "Buy / Hold"; "Review"; "Trim"; "Sell"].

(** Field updates on a row. *)
Definition with_pe (v : pyval) (r : Row) : Row :=
  let f := fund r in
  mkRow (holding r) (current_price r) (market_value r) (cost_value r)
    (pl_dollar r) (pl_pct r) (weight_pct r)
    (mkFundamentals v (forward_pe f) (ps f) (profit_margin f)
       (revenue_growth f) (eps_growth f) (beta f) (analyst_score f)
       (target_price f)).

Definition with_forward_pe (v : pyval) (r : Row) : Row :=
  let f := fund r in
  mkRow (holding r) (current_price r) (market_value r) (cost_value r)
    (pl_dollar r) (pl_pct r) (weight_pct r)
    (mkFundamentals (pe f) v (ps f) (profit_margin f)
       (revenue_growth f) (eps_growth f) (beta f) (analyst_score f)
       (target_price f)).

Definition with_analyst_score (v : pyval) (r : Row) : Row :=
  let f := fund r in
  mkRow (holding r) (current_price r) (market_value r) (cost_value r)
    (pl_dollar r) (pl_pct r) (weight_pct r)
    (mkFundamentals (pe f) (forward_pe f) (ps f) (profit_margin f)
       (revenue_growth f) (eps_growth f) (beta f) v (target_price f)).

(** The sum of a list of rationals. *)
Definition Qsum (l : list Q) : Q := fold_right Qplus 0%Q l.



(** A profit that is zero or NaN: the dividends that turn into NaN over a
    zero divisor. *)
Definition zero_or_nan (x : pyfloat) : bool :=
  match x with
  | Fin q => Qeq_bool q 0
  | NaN => true
  | _ => false
  end.

(** ** Sample inputs *)

(** A stock row with the given percentages and fundamentals. *)
Definition sample_row (pl w : Q) (f : Fundamentals) : Row :=
  mkRow (mkHolding "stock" "ACME" (Fin 1) (Fin 1)) (Fin 1) (Fin 1) (Fin 1)
    (Fin 0) (Fin pl) (Fin w) f.

Definition fund_of (pe forward_pe analyst_score : pyval) : Fundamentals :=
  mkFundamentals pe forward_pe None None None None None analyst_score None.

(** pl_pct=10, weight_pct=8, pe=45, forward_pe=15, analyst_score=2.0 *)
Definition review_row : Row :=
  sample_row 10 8 (fund_of (Some (Fin 45)) (Some (Fin 15)) (Some (Fin 2.0))).

(** A quiet row whose forward P/E is the float 0. *)
Definition zero_forward_pe_row : Row :=
  sample_row 10 3 (fund_of None (Some (Fin 0)) None).

(** A quiet row whose analyst score is the float 0. *)
Definition zero_analyst_row : Row :=
  sample_row 10 3 (fund_of None None (Some (Fin 0))).

(** Ten units of cash booked at no cost. *)
Definition free_cash : Holding := mkHolding "cash" "USD" (Fin 10) (Fin 0).

(** Cash next to the certificate of deposit with the known bid. *)
Definition cash_and_cd : list Holding :=
  [ mkHolding "cash" "USD" (Fin 250) (Fin 1);
    mkHolding "cd" "BANKOFNY" (Fin 1000) (Fin 1);
    mkHolding "bond" "T2030" (Fin 3) (Fin 98.5) ].

(** Oracles that answer nothing: no quote, no info. *)
Definition no_history (_ : string) : result (option pyfloat) := Ok None.
Definition no_info (_ : string) : result (gmap string pyfloat) :=
  Raise (LibraryError "no data").


(** What a run without quotes reports for [cash_and_cd]. *)
Definition cash_and_cd_report : list ScoredRow :=
  match load_and_process_portfolio no_history no_info cash_and_cd with
  | Ok frame => frame
  | Raise _ => []
  end.


(** Cash next to a stock; under [nan_history] the stock has no price. *)
Definition cash_and_stock : list Holding :=
  [ mkHolding "cash" "USD" (Fin 250) (Fin 1);
    mkHolding "stock" "ACME" (Fin 3) (Fin 10) ].

(** A quote service and an info service that know one answer. *)
Definition acme_history (_ : string) : result (option pyfloat) :=
  Ok (Some (Fin 12)).

Definition acme_info (_ : string) : result (gmap string pyfloat) :=
  Ok (<["forwardPE" := Fin 15]> (<["recommendationMean" := Fin 1.8]> ∅)).

(** What a run under those two services reports for [cash_and_stock]. *)
Definition cash_and_stock_report : list ScoredRow :=
  match load_and_process_portfolio acme_history acme_info cash_and_stock with
  | Ok frame => frame
  | Raise _ => []
  end.



(** ** Display layer: [format_for_display] and the styler callbacks *)

(** A numeric cell of the displayed frame: a number, or the empty string
    that [fillna] puts in the place of NaN. *)
Inductive cell : Type :=
  | CNum (x : pyfloat)
  | CBlank.

(** [fillna("")] on one numeric cell. *)
Definition fillna (x : pyfloat) : cell :=
  if is_nan x then CBlank else CNum x.

Definition fund_cols : list string :=
  [ "pe"; "forward_pe"; "ps"; "profit_margin"; "revenue_growth";
    "eps_growth"; "beta"; "analyst_score"; "target_price" ].

(** The fundamentals cells of a row under their column names. *)
Definition fund_items (f : Fundamentals) : list (string * pyval) :=
  [ ("pe", pe f); ("forward_pe", forward_pe f); ("ps", ps f);
    ("profit_margin", profit_margin f); ("revenue_growth", revenue_growth f);
    ("eps_growth", eps_growth f); ("beta", beta f);
    ("analyst_score", analyst_score f); ("target_price", target_price f) ].

Record DisplayRow : Type := mkDisplayRow {
  d_asset_type : string;
  d_ticker : string;
  d_shares : cell;
  d_cost_basis : cell;
  d_current_price : cell;
  d_market_value : cell;
  d_cost_value : cell;
  d_pl_dollar : cell;
  d_pl_pct : cell;
  d_weight_pct : cell;
  d_fund : list (string * string);
  d_score : Z;
  d_decision : string;
  d_insights : string
}.

Section Display.

(** [str] on a float; its digits are left to the caller. *)
Variable str_of_float : pyfloat -> string.

(** The lambda applied to every fundamentals cell:
    [pd.isna] holds of [None] and of NaN. *)
Definition fund_text (v : pyval) : string :=
  match v with
  | None => ""
  | Some x => if is_nan x then "" else str_of_float (around 2 x)
  end.

Definition format_row (sr : ScoredRow) : DisplayRow :=
  let r := row sr in
  let h := holding r in
  let texts := map (fun cv : string * pyval => (cv.1, fund_text cv.2))
                 (fund_items (fund r)) in
  let mask_non_stock := negb (String.eqb (lower (asset_type h)) "stock") in
  let texts :=
    if mask_non_stock
    then map (fun ct : string * string => (ct.1, "")) texts
    else texts in
  mkDisplayRow (asset_type h) (ticker h)
    (fillna (shares h)) (fillna (cost_basis h)) (fillna (current_price r))
    (fillna (market_value r)) (fillna (cost_value r)) (fillna (pl_dollar r))
    (fillna (pl_pct r)) (fillna (weight_pct r))
    texts (score sr) (decision sr) (insights sr).

Definition format_for_display (df : list ScoredRow) : list DisplayRow :=
  map format_row df.

End Display.

(** [float(val)] on a displayed cell: the empty string does not parse. *)
Definition to_float (val : cell) : result pyfloat :=
  match val with
  | CNum x => Ok x
  | CBlank => Raise (ValueError "could not convert string to float: ''")
  end.

(** The body of the [try] in [color_pl]: [Some style] when one of the two
    branches returns, [None] when control falls through. *)
Definition color_pl_try (val : cell) : result (option string) :=
  v ← to_float val;
  if fgt v (Fin 0) then mret (Some "background-color:#d8ffd8;")
  else if flt v (Fin 0) then mret (Some "background-color:#ffd8d8;")
  else mret None.

Definition color_pl (val : cell) : string :=
  match try_except (color_pl_try val) (mret None) with
  | Ok (Some style) => style
  | _ => ""
  end.

Definition color_decision (val : string) : string :=
  if String.eqb val "Strong Buy" then "background-color:#b3e6ff;"
  else if String.eqb val "Buy / Hold" then "background-color:#e6f7ff;"
  else if String.eqb val "Review" then "background-color:#f0f0f0;"
  else if String.eqb val "Trim" then "background-color:#ffe6b3;"
  else if String.eqb val "Sell" then "background-color:#ffcccc;"
  else "".

(** ** The four slices of the insights route *)

Section Slices.

(** [sort_values(col, ascending=False)] on a float column and on the
    integer score column.  The order in which equal keys come out is the
    library's; the slices take the sort as given. *)
Variable sort_float_desc :
  (ScoredRow -> pyfloat) -> list ScoredRow -> list ScoredRow.
Variable sort_int_desc :
  (ScoredRow -> Z) -> list ScoredRow -> list ScoredRow.

(** [df[df["decision"].isin(labels)]] *)
Definition decision_isin (labels : list string) (df : list ScoredRow)
  : list ScoredRow :=
  filter (fun sr => decision sr ∈ labels) df.

Definition trims (df : list ScoredRow) : list ScoredRow :=
  take 5 (sort_float_desc (fun sr => pl_dollar (row sr))
            (decision_isin ["Trim"; "Sell"] df)).

Definition buys (df : list ScoredRow) : list ScoredRow :=
  take 5 (sort_int_desc score (decision_isin ["Strong Buy"; "Buy / Hold"] df)).

Definition concentration (df : list ScoredRow) : list ScoredRow :=
  take 5 (sort_float_desc (fun sr => weight_pct (row sr)) df).

Definition movers (df : list ScoredRow) : list ScoredRow :=
  take 5 (sort_float_desc (fun sr => pl_pct (row sr)) df).

End Slices.

(** [x] may come before [y] in a descending column: NaN goes last. *)
Definition desc_before (x y : pyfloat) : bool :=
  is_nan y || (negb (is_nan x) && negb (flt x y)).

(** Two sorts to run the slices with: merge sorts that put the larger key
    first and NaN last. *)
Definition merge_sort_float_desc (key : ScoredRow -> pyfloat)
    (l : list ScoredRow) : list ScoredRow :=
  @merge_sort ScoredRow (fun a b => desc_before (key a) (key b) = true)
    (fun a b => decide (desc_before (key a) (key b) = true)) l.

Definition merge_sort_int_desc (key : ScoredRow -> Z) (l : list ScoredRow)
  : list ScoredRow :=
  @merge_sort ScoredRow (fun a b => (key b <= key a)%Z)
    (fun a b => decide (key b <= key a)%Z) l.



(** The nine keys of the info dictionary that [fetch_fundamentals] reads. *)
Definition info_keys : list string :=
  [ "trailingPE"; "forwardPE"; "priceToSalesTrailing12Months";
    "profitMargins"; "revenueGrowth"; "earningsQuarterlyGrowth"; "beta";
    "recommendationMean"; "targetMeanPrice" ].

(** * Theorems *)

(** ** Scoring engine *)

(** Case analysis on every condition of the rule set left in the goal. *)
Ltac case_conditions :=
  repeat match goal with
         | |- context [nonzero_and ?v ?t] => destruct (nonzero_and v t)
         | |- context [fgt ?a ?b] => destruct (fgt a b)
         | |- context [flt ?a ?b] => destruct (flt a b)
         end.

Lemma and_then_nonzero_and (v : pyval) (test : pyfloat -> bool) :
  and_then v test = nonzero_and v test.
Proof.
  destruct v as [[q| | |]|]; simpl; try reflexivity.
  destruct (Qeq_bool q 0); reflexivity.
Qed.

Lemma is_zero_Fin (q : Q) : q == 0 -> is_zero (Fin q) = true.
Proof. intros Hq. simpl. apply Qeq_bool_iff. exact Hq. Qed.

Lemma and_then_zero (q : Q) (test : pyfloat -> bool) :
  q == 0 -> and_then (Some (Fin q)) test = and_then None test.
Proof.
  intros Hq. rewrite !and_then_nonzero_and. cbn [nonzero_and].
  rewrite (is_zero_Fin q Hq). reflexivity.
Qed.

(** C1, as amended: the score is the sum of six independent contributions;
    the three conditions on fundamentals contribute only when the field
    holds a float other than zero and the comparison holds. *)
Theorem score_position_sum (row : Row) :
  score_position row = score_sum nonzero_and row.
Proof.
  unfold score_position, score_sum, contribution.
  rewrite !and_then_nonzero_and.
  case_conditions; reflexivity.
Qed.

(** C1 fails as worded: a forward P/E of 0 is present and below 20, yet
    the score does not gain the point. *)
Lemma score_position_zero_forward_pe :
  score_position zero_forward_pe_row = 0%Z /\
  score_sum present_and zero_forward_pe_row = 1%Z /\
  score_position zero_forward_pe_row <> score_sum present_and zero_forward_pe_row.
Proof. repeat split; vm_compute; congruence. Qed.

(** C2: the label is fixed by the five thresholds and by nothing else. *)
Theorem decision_label_thresholds (s : Z) :
  ((2 <= s)%Z -> decision_label s = "Strong Buy") /\
  (s = 1%Z -> decision_label s = "Buy / Hold") /\
  (s = 0%Z -> decision_label s = "Review") /\
  (s = (-1)%Z -> decision_label s = "Trim") /\
  ((s <= -2)%Z -> decision_label s = "Sell") /\
  decision_label s ∈ five_labels.
Proof.
  unfold decision_label, five_labels.
  destruct (Z.geb_spec s 2) as [Hge|Hlt].
  { repeat split; intros; try lia; try reflexivity. set_solver. }
  destruct (Z.eqb_spec s 1) as [->|H1].
  { repeat split; intros; try lia; try reflexivity. set_solver. }
  destruct (Z.eqb_spec s 0) as [->|H0].
  { repeat split; intros; try lia; try reflexivity. set_solver. }
  destruct (Z.eqb_spec s (-1)) as [->|Hm].
  { repeat split; intros; try lia; try reflexivity. set_solver. }
  repeat split; intros; try lia; try reflexivity. set_solver.
Qed.

Lemma decision_label_thresholds_witness :
  decision_label 3 = "Strong Buy" /\
  decision_label 1 = "Buy / Hold" /\
  decision_label 0 = "Review" /\
  decision_label (-1) = "Trim" /\
  decision_label (-5) = "Sell".
Proof.
  split; [apply (decision_label_thresholds 3); lia|].
  split; [apply (decision_label_thresholds 1); reflexivity|].
  split; [apply (decision_label_thresholds 0); reflexivity|].
  split; [apply (decision_label_thresholds (-1)); reflexivity|].
  apply (decision_label_thresholds (-5)); lia.
Defined.

Lemma matched_cons (c : bool) (phrase : string) (t : list (bool * string)) :
  matched ((c, phrase) :: t) = ((if c then [phrase] else []) ++ matched t)%list.
Proof. destruct c; reflexivity. Qed.

(** C4, as amended: the phrases of the matched conditions, in the fixed
    order and joined by "; ", or "Stable" when none matches; the two
    conditions on fundamentals match only when the field holds a float other
    than zero and the comparison holds. *)
Theorem build_insight_table (row : Row) :
  build_insight row = insight_of_table nonzero_and row.
Proof.
  unfold build_insight, insight_of_table, insight_table, append_if.
  rewrite !and_then_nonzero_and, !matched_cons.
  case_conditions; reflexivity.
Qed.

(** C4 fails as worded: an analyst score of 0 is present and below 2, yet
    the insight is "Stable". *)
Lemma build_insight_zero_analyst :
  build_insight zero_analyst_row = "Stable" /\
  insight_of_table present_and zero_analyst_row = "Analysts bullish" /\
  build_insight zero_analyst_row <> insight_of_table present_and zero_analyst_row.
Proof. repeat split; vm_compute; congruence. Qed.

(** C5, as amended: the sample row scores 0 and is labelled "Review"; its
    insight is "High concentration; High valuation", since 2.0 is not
    below 2. *)
Theorem review_row_outcome :
  score_position review_row = 0%Z /\
  decision_label (score_position review_row) = "Review" /\
  build_insight review_row = "High concentration; High valuation".
Proof. repeat split; vm_compute; reflexivity. Qed.

(** C5 fails as worded: the insight of the sample row is not the claimed
    string. *)
Lemma review_row_not_bullish :
  ~ (score_position review_row = 0%Z /\
     decision_label (score_position review_row) = "Review" /\
     build_insight review_row =
       "High concentration; High valuation; Analysts bullish").
Proof. intros (_ & _ & H). vm_compute in H. discriminate H. Qed.

(** A fundamentals cell that reads NaN is true as a value but fails every
    comparison, so it weighs on the score as [None] does. *)
Lemma nan_field_skipped (row : Row) :
  score_position (with_pe (Some NaN) row) = score_position (with_pe None row) /\
  score_position (with_forward_pe (Some NaN) row)
  = score_position (with_forward_pe None row) /\
  score_position (with_analyst_score (Some NaN) row)
  = score_position (with_analyst_score None row).
Proof. repeat split. Qed.

(** The first worked example of the specification: a large gain on a small
    position without fundamentals. *)
Example large_gain_row_outcome :
  let r := sample_row 85 3 empty_fundamentals in
  score_position r = (-1)%Z /\
  decision_label (score_position r) = "Trim" /\
  build_insight r = "Large unrealized gain".
Proof. repeat split; vm_compute; reflexivity. Qed.




(** C10: a [pe], [forward_pe] or [analyst_score] cell holding the float 0
    is skipped by [score_position] and by [build_insight] exactly as a
    [None] cell is. *)
Theorem zero_field_skipped (row : Row) (q : Q) :
  q == 0 ->
  (score_position (with_pe (Some (Fin q)) row)
   = score_position (with_pe None row) /\
   build_insight (with_pe (Some (Fin q)) row)
   = build_insight (with_pe None row)) /\
  (score_position (with_forward_pe (Some (Fin q)) row)
   = score_position (with_forward_pe None row) /\
   build_insight (with_forward_pe (Some (Fin q)) row)
   = build_insight (with_forward_pe None row)) /\
  (score_position (with_analyst_score (Some (Fin q)) row)
   = score_position (with_analyst_score None row) /\
   build_insight (with_analyst_score (Some (Fin q)) row)
   = build_insight (with_analyst_score None row)).
Proof.
  intros Hq.
  unfold score_position, build_insight; cbn [with_pe with_forward_pe
    with_analyst_score fund pe forward_pe analyst_score pl_pct weight_pct].
  rewrite !(and_then_zero q _ Hq).
  repeat split; reflexivity.
Qed.

Lemma zero_field_skipped_witness :
  score_position (with_forward_pe (Some (Fin 0)) review_row)
  = score_position (with_forward_pe None review_row).
Proof.
  apply (zero_field_skipped review_row 0). reflexivity.
Defined.

(** ** Exceptions and row-wise application *)

Lemma apply_rows_total {A B : Type} (f : A -> result B) (g : A -> B)
    (rows : list A) :
  (forall x, f x = Ok (g x)) -> apply_rows f rows = Ok (map g rows).
Proof.
  intros Hf. induction rows as [|x rows IH]; [reflexivity|].
  cbn [apply_rows]. rewrite Hf, IH. reflexivity.
Qed.

Lemma apply_rows_Forall2 {A B : Type} (f : A -> result B) (rows : list A)
    (ys : list B) :
  apply_rows f rows = Ok ys -> Forall2 (fun x y => f x = Ok y) rows ys.
Proof.
  revert ys. induction rows as [|x rows IH]; intros ys H.
  - cbn in H. injection H as <-. constructor.
  - cbn [apply_rows] in H. destruct (f x) as [y|e] eqn:Hx; [|discriminate H].
    cbn in H. destruct (apply_rows f rows) as [ys'|e] eqn:Hrows;
      [|discriminate H].
    cbn in H. injection H as <-. constructor; [exact Hx|]. apply IH. reflexivity.
Qed.

Lemma apply_rows_length {A B : Type} (f : A -> result B) (rows : list A)
    (ys : list B) :
  apply_rows f rows = Ok ys -> length ys = length rows.
Proof.
  intros H. symmetry. eapply Forall2_length, apply_rows_Forall2, H.
Qed.

Lemma apply_rows_lookup {A B : Type} (f : A -> result B) (rows : list A)
    (ys : list B) (i : nat) (x : A) :
  apply_rows f rows = Ok ys -> rows !! i = Some x ->
  exists y, ys !! i = Some y /\ f x = Ok y.
Proof.
  intros H Hi.
  destruct (Forall2_lookup_l _ _ _ _ _ (apply_rows_Forall2 _ _ _ H) Hi)
    as (y & Hy & Hxy).
  exists y. split; assumption.
Qed.

(** ** Price router *)

Section PriceRouter.

Variable history : string -> result (option pyfloat).

Lemma fetch_cd_price_override (h : Holding) :
  upper (ticker h) = "BANKOFNY" ->
  exists q, fetch_cd_price h = Fin q /\ q == 0.99632.
Proof.
  intros Hu. unfold fetch_cd_price. rewrite Hu.
  eexists. split; [vm_compute; reflexivity|reflexivity].
Qed.

Lemma fetch_cd_price_fallback (h : Holding) :
  upper (ticker h) <> "BANKOFNY" -> fetch_cd_price h = cost_basis h.
Proof.
  intros Hu. unfold fetch_cd_price.
  destruct (String.eqb_spec (upper (ticker h)) "BANKOFNY") as [E|_];
    [contradiction|reflexivity].
Qed.

(** C6, as amended: the asset type is compared after lowercasing and the
    ticker after uppercasing.  "cash" gives 1.0; "cd" and "bond" give the
    quotient 99.632 / 100.0, which is 0.99632, for the ticker "BANKOFNY"
    and the cost basis for any other; an asset type that lowercases to
    none of the five names raises ValueError. *)
Theorem fetch_price_router (h : Holding) :
  let atype := lower (asset_type h) in
  (atype = "cash" -> fetch_price history h = Ok (Fin 1.0)) /\
  (atype = "cd" \/ atype = "bond" ->
     (upper (ticker h) = "BANKOFNY" ->
        exists q, fetch_price history h = Ok (Fin q) /\ q == 0.99632) /\
     (upper (ticker h) <> "BANKOFNY" ->
        fetch_price history h = Ok (cost_basis h))) /\
  (atype ∉ ["stock"; "crypto"; "cd"; "bond"; "cash"] ->
     fetch_price history h
     = Raise (ValueError ("Unknown asset type: " ++ atype))).
Proof.
  cbn zeta. unfold fetch_price. repeat split.
  - intros ->. reflexivity.
  - intros Hu.
    destruct (fetch_cd_price_override h Hu) as (q & Hq & Hq').
    exists q. split; [|exact Hq'].
    destruct H as [-> | ->]; cbn; rewrite Hq; reflexivity.
  - intros Hu. rewrite <- (fetch_cd_price_fallback h Hu).
    destruct H as [-> | ->]; reflexivity.
  - intros Hout.
    repeat match goal with
           | |- context [String.eqb ?a ?b] =>
               destruct (String.eqb_spec a b) as [E|?];
               [exfalso; apply Hout; rewrite E; set_solver|]
           end.
    reflexivity.
Qed.

End PriceRouter.

Lemma fetch_price_router_witness :
  fetch_price no_history (mkHolding "Cash" "USD" (Fin 5) (Fin 1)) = Ok (Fin 1.0) /\
  (exists q,
     fetch_price no_history (mkHolding "cd" "BANKOFNY" (Fin 5) (Fin 100))
     = Ok (Fin q) /\ q == 0.99632) /\
  fetch_price no_history (mkHolding "bond" "T2030" (Fin 5) (Fin 97))
  = Ok (Fin 97) /\
  fetch_price no_history (mkHolding "ETF" "SPY" (Fin 5) (Fin 97))
  = Raise (ValueError "Unknown asset type: etf").
Proof.
  split.
  { apply (fetch_price_router no_history
             (mkHolding "Cash" "USD" (Fin 5) (Fin 1))). reflexivity. }
  split.
  { apply (fetch_price_router no_history
             (mkHolding "cd" "BANKOFNY" (Fin 5) (Fin 100)));
      [left; reflexivity | reflexivity]. }
  split.
  { apply (fetch_price_router no_history
             (mkHolding "bond" "T2030" (Fin 5) (Fin 97)));
      [right; reflexivity | vm_compute; discriminate]. }
  apply (fetch_price_router no_history
           (mkHolding "ETF" "SPY" (Fin 5) (Fin 97))).
  vm_compute. intros H.
  repeat (apply elem_of_cons in H as [H|H]; [discriminate H|]).
  inversion H.
Defined.

(** C6 fails as worded: a CD whose ticker is written "bankofny" is not
    priced at its cost basis, and the asset type "CASH", which is none of
    the five names, raises nothing. *)
Lemma fetch_price_folds_case :
  let cd := mkHolding "cd" "bankofny" (Fin 10) (Fin 100) in
  let cash := mkHolding "CASH" "USD" (Fin 10) (Fin 1) in
  (ticker cd <> "BANKOFNY" /\
   fetch_price no_history cd <> Ok (cost_basis cd) /\
   fetch_price no_history cd = Ok (fdiv (Fin 99.632) (Fin 100.0))) /\
  ((asset_type cash ∉ ["stock"; "crypto"; "cd"; "bond"; "cash"]) /\
   fetch_price no_history cash = Ok (Fin 1.0)).
Proof.
  cbn zeta. repeat split.
  - discriminate.
  - vm_compute. discriminate.
  - cbn. intros H.
    repeat (apply elem_of_cons in H as [H|H]; [discriminate H|]).
    inversion H.
Qed.

(** ** Fundamentals *)

Section SafeFundamentals.

Variable info_of : string -> result (gmap string pyfloat).

Lemma safe_fundamentals_non_stock (h : Holding) :
  lower (asset_type h) <> "stock" ->
  safe_fundamentals info_of h = Ok empty_fundamentals.
Proof.
  intros Hns. unfold safe_fundamentals.
  destruct (String.eqb_spec (lower (asset_type h)) "stock") as [E|_];
    [contradiction|reflexivity].
Qed.

Lemma safe_fundamentals_failure (h : Holding) (e : exn) :
  fetch_fundamentals info_of (ticker h) = Raise e ->
  safe_fundamentals info_of h = Ok empty_fundamentals.
Proof.
  intros Hf. unfold safe_fundamentals. rewrite Hf.
  destruct (negb _); reflexivity.
Qed.

Lemma safe_fundamentals_returns (h : Holding) :
  safe_fundamentals info_of h = Ok (fundamentals_of info_of h).
Proof.
  unfold fundamentals_of, safe_fundamentals.
  destruct (negb _); [reflexivity|].
  destruct (fetch_fundamentals info_of (ticker h)); reflexivity.
Qed.

(** C7: for a holding that is not a stock, and for any holding whose
    fundamentals fetch raises, [safe_fundamentals] returns the record with
    all nine fields [None]; it raises on no holding, so applying it to
    every row of a portfolio returns one record per row. *)
Theorem safe_fundamentals_isolated :
  (forall h : Holding,
     lower (asset_type h) <> "stock" ->
     safe_fundamentals info_of h
     = Ok (mkFundamentals None None None None None None None None None)) /\
  (forall (h : Holding) (e : exn),
     fetch_fundamentals info_of (ticker h) = Raise e ->
     safe_fundamentals info_of h
     = Ok (mkFundamentals None None None None None None None None None)) /\
  (forall h : Holding, exists f, safe_fundamentals info_of h = Ok f) /\
  (forall portfolio : list Holding,
     exists fs,
       apply_rows (safe_fundamentals info_of) portfolio = Ok fs /\
       length fs = length portfolio /\
       forall (i : nat) (h : Holding),
         portfolio !! i = Some h ->
         (lower (asset_type h) <> "stock" \/
          exists e, fetch_fundamentals info_of (ticker h) = Raise e) ->
         fs !! i
         = Some (mkFundamentals None None None None None None None None None)).
Proof.
  split; [exact safe_fundamentals_non_stock|].
  split; [exact safe_fundamentals_failure|].
  split.
  { intros h. exists (fundamentals_of info_of h). apply safe_fundamentals_returns. }
  intros portfolio. exists (map (fundamentals_of info_of) portfolio).
  split; [apply apply_rows_total, safe_fundamentals_returns|].
  split; [apply length_map|].
  intros i h Hi Hcase.
  assert (Hh : fundamentals_of info_of h = empty_fundamentals).
  { unfold fundamentals_of.
    destruct Hcase as [Hns | [e He]].
    - rewrite (safe_fundamentals_non_stock h Hns). reflexivity.
    - rewrite (safe_fundamentals_failure h e He). reflexivity. }
  change (map (fundamentals_of info_of) portfolio)
    with (fundamentals_of info_of <$> portfolio).
  rewrite list_lookup_fmap, Hi. cbn. rewrite Hh. reflexivity.
Qed.

End SafeFundamentals.

(** ** The frame *)

Lemma around_not_finite (d : nat) (x : pyfloat) :
  is_finite x = false -> around d x = x.
Proof. destruct x; [discriminate|reflexivity..]. Qed.

Lemma signed_inf_not_finite (q : Q) : is_finite (signed_inf q) = false.
Proof. unfold signed_inf. destruct (Qeq_bool q 0), (Qltb 0 q); reflexivity. Qed.

Lemma signed_inf_nan (q : Q) : is_nan (signed_inf q) = Qeq_bool q 0.
Proof. unfold signed_inf. destruct (Qeq_bool q 0), (Qltb 0 q); reflexivity. Qed.

(** Over a zero divisor the quotient, scaled to a percentage, is NaN for a
    dividend that is zero or NaN and an infinity for any other. *)
Lemma pct_of_zero_divisor (d : pyfloat) (c : Q) :
  c == 0 ->
  let pct := fmul (fdiv d (Fin c)) (Fin 100) in
  is_finite pct = false /\ is_nan pct = zero_or_nan d.
Proof.
  intros Hc. cbn zeta.
  assert (Hz : Qeq_bool c 0 = true) by (apply Qeq_bool_iff; exact Hc).
  assert (Hn : Qltb c 0 = false).
  { unfold Qltb. apply negb_false_iff, Qle_bool_iff. rewrite Hc. apply Qle_refl. }
  destruct d as [q| | |]; cbn [fdiv]; rewrite ?Hz, ?Hn.
  - cbn [zero_or_nan]. unfold signed_inf.
    destruct (Qeq_bool q 0); [split; reflexivity|].
    destruct (Qltb 0 q); split; reflexivity.
  - split; reflexivity.
  - split; reflexivity.
  - split; reflexivity.
Qed.

Lemma assign_apply_nonempty {A B : Type} (f : A -> result B) (rows : list A) :
  rows <> [] -> assign_apply f rows = apply_rows f rows.
Proof. destruct rows; [contradiction|reflexivity]. Qed.

Lemma lookup_nonempty {A : Type} (l : list A) (i : nat) (x : A) :
  l !! i = Some x -> l <> [].
Proof. intros H ->. rewrite lookup_nil in H. discriminate H. Qed.

Section Frame.

Variable history : string -> result (option pyfloat).
Variable info_of : string -> result (gmap string pyfloat).

(** The rows of the frame once every price has been resolved. *)
Lemma scored_frame_rows (portfolio : list Holding) (prices : list pyfloat) :
  portfolio <> [] ->
  apply_rows (fetch_price history) portfolio = Ok prices ->
  let total_value :=
    sum_skipna (zip_with (fun h p => fmul (shares h) p) portfolio prices) in
  scored_frame history info_of portfolio
  = Ok (map add_scores
          (zip_with (fun hp f => core_metrics total_value hp.1 hp.2 f)
             (zip portfolio prices)
             (map (fundamentals_of info_of) portfolio))).
Proof.
  intros Hne Hp. cbn zeta. unfold scored_frame.
  rewrite (assign_apply_nonempty _ _ Hne), Hp. cbn.
  rewrite (apply_rows_total _ (fundamentals_of info_of));
    [reflexivity|apply safe_fundamentals_returns].
Qed.

Lemma scored_frame_lookup (portfolio : list Holding) (prices : list pyfloat)
    (i : nat) (h : Holding) (p : pyfloat) :
  apply_rows (fetch_price history) portfolio = Ok prices ->
  portfolio !! i = Some h -> prices !! i = Some p ->
  let total_value :=
    sum_skipna (zip_with (fun h p => fmul (shares h) p) portfolio prices) in
  exists frame,
    scored_frame history info_of portfolio = Ok frame /\
    frame !! i
    = Some (add_scores
              (core_metrics total_value h p (fundamentals_of info_of h))).
Proof.
  intros Hp Hh Hpi. cbn zeta. eexists. split.
  - apply scored_frame_rows; [exact (lookup_nonempty _ _ _ Hh)|exact Hp].
  - change (map add_scores ?l) with (add_scores <$> l).
    rewrite list_lookup_fmap, lookup_zip_with.
    rewrite lookup_zip_with, Hh, Hpi. cbn.
    change (map ?f portfolio) with (f <$> portfolio).
    rewrite list_lookup_fmap, Hh. reflexivity.
Qed.

(** C3, as amended: for a holding whose cost value is zero the division
    raises nothing and the reported [pl_pct] is never finite; it is NaN
    when the holding's profit is zero or NaN, and an infinity when the
    profit is any other number. *)
Theorem pl_pct_zero_cost (portfolio : list Holding) (prices : list pyfloat)
    (i : nat) (h : Holding) (p : pyfloat) (c : Q) :
  apply_rows (fetch_price history) portfolio = Ok prices ->
  portfolio !! i = Some h ->
  prices !! i = Some p ->
  fmul (shares h) (cost_basis h) = Fin c ->
  c == 0 ->
  exists out sr,
    load_and_process_portfolio history info_of portfolio = Ok out /\
    out !! i = Some sr /\
    is_finite (pl_pct (row sr)) = false /\
    is_nan (pl_pct (row sr))
    = zero_or_nan (fsub (fmul (shares h) p) (Fin c)) /\
    is_inf (pl_pct (row sr))
    = negb (zero_or_nan (fsub (fmul (shares h) p) (Fin c))).
Proof.
  intros Hp Hh Hpi Hcost Hc.
  destruct (scored_frame_lookup portfolio prices i h p Hp Hh Hpi)
    as (frame & Hframe & Hi).
  unfold load_and_process_portfolio. rewrite Hframe. cbn.
  eexists _, _. split; [reflexivity|].
  split.
  { change (map round_columns frame) with (round_columns <$> frame).
    rewrite list_lookup_fmap, Hi. reflexivity. }
  cbn [round_columns add_scores core_metrics row pl_pct].
  rewrite Hcost.
  destruct (pct_of_zero_divisor (fsub (fmul (shares h) p) (Fin c)) c Hc)
    as [Hfin Hnan].
  rewrite (around_not_finite _ _ Hfin).
  split; [exact Hfin|]. split; [exact Hnan|].
  rewrite <- Hnan.
  destruct (fmul (fdiv _ _) _); [discriminate Hfin|reflexivity..].
Qed.

End Frame.

(** ** Sums of finite columns *)

Local Open Scope Q_scope.

Lemma fold_left_Qplus (qs : list Q) (a : Q) :
  fold_left Qplus qs a == a + Qsum qs.
Proof.
  unfold Qsum. revert a.
  induction qs as [|q qs IH]; intros a; cbn [fold_left fold_right].
  - ring.
  - rewrite IH. ring.
Qed.

Lemma fold_left_fadd_Fin (qs : list Q) (a : Q) :
  fold_left fadd (map Fin qs) (Fin a) = Fin (fold_left Qplus qs a).
Proof.
  revert a. induction qs as [|q qs IH]; intros a; [reflexivity|].
  cbn. apply IH.
Qed.

Lemma filter_not_nan_Fin (qs : list Q) :
  filter (fun x => is_nan x = false) (map Fin qs) = map Fin qs.
Proof.
  induction qs as [|q qs IH]; [reflexivity|].
  cbn [map]. rewrite filter_cons_True by reflexivity. rewrite IH. reflexivity.
Qed.

Lemma sum_skipna_Fin (qs : list Q) :
  sum_skipna (map Fin qs) = Fin (fold_left Qplus qs 0).
Proof.
  unfold sum_skipna. rewrite filter_not_nan_Fin. apply fold_left_fadd_Fin.
Qed.


Lemma finite_column (col : list pyfloat) :
  Forall (fun x => is_finite x = true) col -> exists qs, col = map Fin qs.
Proof.
  induction 1 as [|x col Hx _ [qs ->]].
  - exists []. reflexivity.
  - destruct x as [q| | |]; try discriminate Hx.
    exists (q :: qs). reflexivity.
Qed.

Lemma Qsum_scale (f : Q -> Q) (k : Q) (qs : list Q) :
  (forall a, f a == a * k) -> Qsum (map f qs) == Qsum qs * k.
Proof.
  intros Hf. unfold Qsum. induction qs as [|q qs IH]; cbn [map fold_right].
  - ring.
  - rewrite IH, Hf. ring.
Qed.


(** ** Rounding *)



(** ** Portfolio weights *)

Lemma market_values_finite (portfolio : list Holding) (prices : list pyfloat) :
  Forall (fun h => is_finite (shares h) = true) portfolio ->
  Forall (fun p => is_finite p = true) prices ->
  Forall (fun m => is_finite m = true)
    (zip_with (fun h p => fmul (shares h) p) portfolio prices).
Proof.
  intros Hs. revert prices.
  induction Hs as [|h portfolio Hh _ IH]; intros prices Hp; [constructor|].
  destruct Hp as [|p prices Hpf Hp]; [constructor|].
  cbn [zip_with]. constructor; [|apply IH, Hp].
  destruct (shares h); try discriminate Hh.
  destruct p; try discriminate Hpf. reflexivity.
Qed.

(** The weight column of the frame is the market-value column divided by
    the total and scaled to a percentage. *)
Lemma weight_column (total_value : pyfloat) (portfolio : list Holding)
    (prices : list pyfloat) (fs : list Fundamentals) :
  length prices = length portfolio ->
  length fs = length portfolio ->
  map (fun sr => weight_pct (row sr))
    (map add_scores
       (zip_with (fun hp f => core_metrics total_value hp.1 hp.2 f)
          (zip portfolio prices) fs))
  = map (fun m => fmul (fdiv m total_value) (Fin 100))
      (zip_with (fun h p => fmul (shares h) p) portfolio prices).
Proof.
  revert prices fs.
  induction portfolio as [|h portfolio IH]; intros [|p prices] [|f fs] Hp Hf;
    try discriminate; [reflexivity|].
  cbn [zip_with map]. f_equal.
  apply IH; [injection Hp as Hp; exact Hp | injection Hf as Hf; exact Hf].
Qed.

Lemma weights_of_finite (T : Q) (qs : list Q) :
  0 < T ->
  map (fun m => fmul (fdiv m (Fin T)) (Fin 100)) (map Fin qs)
  = map Fin (map (fun a => a / T * 100) qs).
Proof.
  intros HT.
  assert (Hz : Qeq_bool T 0 = false).
  { destruct (Qeq_bool T 0) eqn:E; [|reflexivity].
    apply Qeq_bool_iff in E. rewrite E in HT. discriminate HT. }
  induction qs as [|q qs IH]; [reflexivity|].
  cbn [map fdiv fmul]. rewrite Hz, IH. reflexivity.
Qed.

Lemma Qsum_weights (T : Q) (qs : list Q) :
  0 < T -> Qsum qs == T -> Qsum (map (fun a => a / T * 100) qs) == 100.
Proof.
  intros HT Hsum.
  rewrite (Qsum_scale _ (/ T * 100)) by (intros a; unfold Qdiv; ring).
  rewrite Hsum. field. intros E. rewrite E in HT. discriminate HT.
Qed.



Section Weights.

Variable history : string -> result (option pyfloat).
Variable info_of : string -> result (gmap string pyfloat).


End Weights.

(** ** The theorems on sample portfolios *)

Lemma pl_pct_zero_cost_witness :
  exists out sr,
    load_and_process_portfolio no_history no_info [free_cash] = Ok out /\
    out !! 0%nat = Some sr /\
    is_finite (pl_pct (row sr)) = false /\
    is_nan (pl_pct (row sr))
    = zero_or_nan (fsub (fmul (shares free_cash) (Fin 1.0)) (Fin 0)) /\
    is_inf (pl_pct (row sr))
    = negb (zero_or_nan (fsub (fmul (shares free_cash) (Fin 1.0)) (Fin 0))).
Proof.
  apply (pl_pct_zero_cost no_history no_info [free_cash] [Fin 1.0] 0
           free_cash (Fin 1.0) 0); reflexivity.
Defined.

(** C3 fails as worded: cash booked at no cost has cost value 0 and a
    reported [pl_pct] of plus infinity, which the scoring engine then reads
    as a gain above 80. *)
Lemma pl_pct_infinite_for_free_cash :
  fmul (shares free_cash) (cost_basis free_cash) = Fin 0 /\
  exists sr,
    load_and_process_portfolio no_history no_info [free_cash] = Ok [sr] /\
    pl_pct (row sr) = PInf /\
    score sr = (-2)%Z /\
    insights sr = "Large unrealized gain; High concentration"%string.
Proof.
  split; [reflexivity|].
  eexists. split; [vm_compute; reflexivity|].
  repeat split; vm_compute; reflexivity.
Qed.


Lemma safe_fundamentals_isolated_witness :
  safe_fundamentals no_info free_cash
  = Ok (mkFundamentals None None None None None None None None None) /\
  safe_fundamentals no_info (mkHolding "stock" "ACME" (Fin 4) (Fin 12))
  = Ok (mkFundamentals None None None None None None None None None).
Proof.
  split.
  - apply (proj1 (safe_fundamentals_isolated no_info) free_cash).
    vm_compute. discriminate.
  - apply (proj1 (proj2 (safe_fundamentals_isolated no_info))
             (mkHolding "stock" "ACME" (Fin 4) (Fin 12))
             (LibraryError "no data")).
    reflexivity.
Defined.

(** * Further properties *)

(** ** Range and shape of the score *)

Lemma Qltb_true (a b : Q) : Qltb a b = true <-> a < b.
Proof.
  unfold Qltb. rewrite negb_true_iff. split.
  - intros H. apply Qnot_le_lt. intros Hle.
    apply Qle_bool_iff in Hle. congruence.
  - intros H. destruct (Qle_bool b a) eqn:E; [|reflexivity].
    apply Qle_bool_iff in E. exfalso. apply (Qlt_not_le _ _ H E).
Qed.

Lemma Qltb_false (a b : Q) : Qltb a b = false <-> b <= a.
Proof.
  unfold Qltb. rewrite negb_false_iff. apply Qle_bool_iff.
Qed.

(** A value above 80 is not below -20. *)
Lemma gain_excludes_loss (x : pyfloat) :
  fgt x (Fin 80) = true -> flt x (Fin (-20)) = false.
Proof.
  destruct x as [q| | |]; cbn; try (intros; reflexivity || discriminate).
  rewrite Qltb_true, Qltb_false. intros H.
  apply Qlt_le_weak. eapply Qlt_trans; [|exact H]. reflexivity.
Qed.

Lemma score_position_bounds (row : Row) :
  (-3 <= score_position row <= 2)%Z.
Proof.
  unfold score_position.
  pose proof (gain_excludes_loss (pl_pct row)) as Hex.
  destruct (fgt (pl_pct row) (Fin 80));
    destruct (flt (pl_pct row) (Fin (-20)));
    try (specialize (Hex eq_refl); discriminate Hex);
    destruct (fgt (weight_pct row) (Fin 7));
    destruct (and_then (pe (fund row)) _);
    destruct (and_then (forward_pe (fund row)) _);
    destruct (and_then (analyst_score (fund row)) _); lia.
Qed.

Lemma decision_label_in_five (s : Z) : decision_label s ∈ five_labels.
Proof.
  unfold decision_label, five_labels.
  destruct (s >=? 2)%Z; [set_solver|].
  destruct (s =? 1)%Z; [set_solver|].
  destruct (s =? 0)%Z; [set_solver|].
  destruct (s =? -1)%Z; set_solver.
Qed.

(** The score never leaves the interval from -3 to 2, and both ends are
    reached. *)
Theorem score_position_range :
  (forall row : Row, (-3 <= score_position row <= 2)%Z) /\
  (exists row : Row, score_position row = (-3)%Z) /\
  (exists row : Row, score_position row = 2%Z).
Proof.
  split; [|split].
  - exact score_position_bounds.
  - exists (sample_row 90 9 (fund_of (Some (Fin 50)) None None)).
    reflexivity.
  - exists (sample_row 5 2 (fund_of None (Some (Fin 12)) (Some (Fin 1.5)))).
    reflexivity.
Qed.

(** The label is "Strong Buy" exactly when both favourable conditions hold
    and none of the four penalties does. *)
Theorem strong_buy_iff (row : Row) :
  decision_label (score_position row) = "Strong Buy"%string <->
  and_then (forward_pe (fund row)) (fun x => flt x (Fin 20)) = true /\
  and_then (analyst_score (fund row)) (fun x => flt x (Fin 2.5)) = true /\
  fgt (pl_pct row) (Fin 80) = false /\
  fgt (weight_pct row) (Fin 7) = false /\
  flt (pl_pct row) (Fin (-20)) = false /\
  and_then (pe (fund row)) (fun x => fgt x (Fin 40)) = false.
Proof.
  unfold score_position.
  destruct (fgt (pl_pct row) (Fin 80));
    destruct (flt (pl_pct row) (Fin (-20)));
    destruct (fgt (weight_pct row) (Fin 7));
    destruct (and_then (pe (fund row)) _);
    destruct (and_then (forward_pe (fund row)) _);
    destruct (and_then (analyst_score (fund row)) _);
    cbn; split; intros H; try discriminate H;
    try (repeat split; reflexivity);
    try (destruct H as (H1 & H2 & H3 & H4 & H5 & H6); discriminate).
Qed.

(** A row without fundamentals scores at most 0 and is labelled "Review",
    "Trim" or "Sell". *)
Lemma no_fundamentals_no_buy (row : Row) :
  fund row = empty_fundamentals ->
  (score_position row <= 0)%Z /\
  decision_label (score_position row)
    ∈ ["Review"%string; "Trim"%string; "Sell"%string].
Proof.
  intros Hf. unfold score_position. rewrite Hf. cbn [empty_fundamentals pe
    forward_pe analyst_score and_then].
  destruct (fgt (pl_pct row) (Fin 80));
    destruct (flt (pl_pct row) (Fin (-20)));
    destruct (fgt (weight_pct row) (Fin 7));
    cbn; (split; [lia|set_solver]).
Qed.

(** An insight of "Stable" rules out every penalty: the score is then at
    least 0 and the label is none of "Trim" and "Sell". *)
Theorem stable_insight_no_penalty (row : Row) :
  build_insight row = "Stable"%string ->
  (0 <= score_position row)%Z /\
  decision_label (score_position row)
    ∈ ["Review"%string; "Buy / Hold"%string; "Strong Buy"%string].
Proof.
  unfold build_insight, score_position, append_if.
  destruct (fgt (pl_pct row) (Fin 80));
    destruct (flt (pl_pct row) (Fin (-20)));
    destruct (fgt (weight_pct row) (Fin 7));
    destruct (and_then (pe (fund row)) _);
    destruct (and_then (analyst_score (fund row)) (fun x => flt x (Fin 2)));
    cbn; intros H; try discriminate H;
    destruct (and_then (forward_pe (fund row)) _);
    destruct (and_then (analyst_score (fund row)) _);
    cbn; (split; [lia|set_solver]).
Qed.

Lemma stable_insight_no_penalty_witness :
  (0 <= score_position zero_analyst_row)%Z /\
  decision_label (score_position zero_analyst_row)
    ∈ ["Review"%string; "Buy / Hold"%string; "Strong Buy"%string].
Proof.
  apply (stable_insight_no_penalty zero_analyst_row). reflexivity.
Defined.

(** An analyst score that passes the insight test (below 2) passes the
    scoring test (below 2.5). *)
Lemma bullish_implies_scored (v : pyval) :
  and_then v (fun x => flt x (Fin 2)) = true ->
  and_then v (fun x => flt x (Fin 2.5)) = true.
Proof.
  destruct v as [[q| | |]|]; cbn; try (intros; assumption || discriminate).
  destruct (negb (Qeq_bool q 0)); cbn; [|discriminate].
  rewrite !Qltb_true. intros H. eapply Qlt_trans; [exact H|reflexivity].
Qed.

(** Whenever the analyst score changes the insight of a row, it also adds
    one point to its score. *)
Theorem bullish_insight_scores (row : Row) :
  build_insight row <> build_insight (with_analyst_score None row) ->
  score_position row
  = (score_position (with_analyst_score None row) + 1)%Z.
Proof.
  destruct row as [h cp mv cv pd pl w [a b c d e f g an t]].
  unfold build_insight, score_position, with_analyst_score.
  cbn [fund pe forward_pe analyst_score pl_pct weight_pct ps profit_margin
       revenue_growth eps_growth beta target_price holding current_price
       market_value cost_value pl_dollar].
  pose proof (bullish_implies_scored an) as Himp.
  destruct (and_then an (fun x => flt x (Fin 2))).
  - rewrite (Himp eq_refl). intros _. cbn [and_then].
    destruct (fgt pl (Fin 80)); destruct (fgt w (Fin 7));
      destruct (flt pl (Fin (-20))); destruct (and_then a _);
      destruct (and_then b _); lia.
  - intros H. exfalso. apply H. reflexivity.
Qed.

Lemma bullish_insight_scores_witness :
  score_position
    (sample_row 10 3 (fund_of None None (Some (Fin 1.5))))
  = (score_position
       (with_analyst_score None
          (sample_row 10 3 (fund_of None None (Some (Fin 1.5))))) + 1)%Z.
Proof.
  apply (bullish_insight_scores
           (sample_row 10 3 (fund_of None None (Some (Fin 1.5))))).
  vm_compute. discriminate.
Defined.

(** Each label is given on its own class of scores and on no other. *)
Theorem decision_label_classes (s : Z) :
  (decision_label s = "Strong Buy"%string <-> (2 <= s)%Z) /\
  (decision_label s = "Buy / Hold"%string <-> s = 1%Z) /\
  (decision_label s = "Review"%string <-> s = 0%Z) /\
  (decision_label s = "Trim"%string <-> s = (-1)%Z) /\
  (decision_label s = "Sell"%string <-> (s <= -2)%Z).
Proof.
  unfold decision_label.
  destruct (Z.geb_spec s 2);
    [repeat split; intros; try lia; try discriminate; reflexivity|].
  destruct (Z.eqb_spec s 1);
    [repeat split; intros; try lia; try discriminate; reflexivity|].
  destruct (Z.eqb_spec s 0);
    [repeat split; intros; try lia; try discriminate; reflexivity|].
  destruct (Z.eqb_spec s (-1));
    [repeat split; intros; try lia; try discriminate; reflexivity|].
  repeat split; intros; try lia; try discriminate; reflexivity.
Qed.

(** ** When a run succeeds and when it aborts *)

Lemma apply_rows_Ok_iff {A B : Type} (f : A -> result B) (rows : list A) :
  (exists ys, apply_rows f rows = Ok ys)
  <-> Forall (fun x => exists y, f x = Ok y) rows.
Proof.
  split.
  - intros [ys H]. apply apply_rows_Forall2 in H.
    induction H as [|x y rows ys Hxy _ IH]; constructor; eauto.
  - induction 1 as [|x rows [y Hy] _ [ys IH]].
    + exists []. reflexivity.
    + exists (y :: ys). cbn [apply_rows]. rewrite Hy, IH. reflexivity.
Qed.

Lemma apply_rows_Raise_iff {A B : Type} (f : A -> result B) (rows : list A)
    (e : exn) :
  apply_rows f rows = Raise e
  <-> exists pre x post,
        rows = (pre ++ x :: post)%list /\
        Forall (fun y => exists b, f y = Ok b) pre /\
        f x = Raise e.
Proof.
  split.
  - induction rows as [|r rows IH]; [discriminate|].
    cbn [apply_rows]. destruct (f r) as [y|e'] eqn:Hr; cbn.
    + destruct (apply_rows f rows) as [ys|e'] eqn:Hrows; cbn; [discriminate|].
      intros [= ->]. destruct (IH eq_refl) as (pre & x & post & -> & Hpre & Hx).
      exists (r :: pre), x, post. repeat split; [|exact Hx].
      constructor; [eauto|exact Hpre].
    + intros [= ->]. exists [], r, rows. repeat split; [constructor|exact Hr].
  - intros (pre & x & post & -> & Hpre & Hx).
    induction Hpre as [|y pre [b Hb] _ IH]; cbn [apply_rows app].
    + rewrite Hx. reflexivity.
    + rewrite Hb. cbn. rewrite IH. reflexivity.
Qed.

Section Run.

Variable history : string -> result (option pyfloat).
Variable info_of : string -> result (gmap string pyfloat).

Lemma load_Ok_nonempty (portfolio : list Holding) (out : list ScoredRow) :
  load_and_process_portfolio history info_of portfolio = Ok out ->
  portfolio <> [].
Proof. intros H ->. discriminate H. Qed.

Lemma load_Ok_prices (portfolio : list Holding) (out : list ScoredRow) :
  load_and_process_portfolio history info_of portfolio = Ok out ->
  exists prices, apply_rows (fetch_price history) portfolio = Ok prices.
Proof.
  intros Hout. pose proof (load_Ok_nonempty portfolio out Hout) as Hne.
  unfold load_and_process_portfolio, scored_frame in Hout.
  rewrite (assign_apply_nonempty _ _ Hne) in Hout.
  destruct (apply_rows (fetch_price history) portfolio) as [prices|e];
    [eauto|discriminate].
Qed.

Lemma load_of_prices (portfolio : list Holding) (prices : list pyfloat) :
  portfolio <> [] ->
  apply_rows (fetch_price history) portfolio = Ok prices ->
  exists out, load_and_process_portfolio history info_of portfolio = Ok out.
Proof.
  intros Hne Hp. unfold load_and_process_portfolio.
  rewrite (scored_frame_rows history info_of portfolio prices Hne Hp).
  eexists. reflexivity.
Qed.

Lemma load_Raise_prices (portfolio : list Holding) (e : exn) :
  portfolio <> [] ->
  load_and_process_portfolio history info_of portfolio = Raise e
  <-> apply_rows (fetch_price history) portfolio = Raise e.
Proof.
  intros Hne.
  destruct (apply_rows (fetch_price history) portfolio) as [prices|e'] eqn:Hp.
  - destruct (load_of_prices portfolio prices Hne Hp) as [out Hout].
    rewrite Hout. split; discriminate.
  - unfold load_and_process_portfolio, scored_frame.
    rewrite (assign_apply_nonempty _ _ Hne), Hp. cbn.
    split; intros [= ->]; reflexivity.
Qed.

(** What the run reports for the holding at position [i]. *)
Lemma load_lookup (portfolio : list Holding) (out : list ScoredRow)
    (i : nat) (h : Holding) :
  load_and_process_portfolio history info_of portfolio = Ok out ->
  portfolio !! i = Some h ->
  exists total_value p,
    fetch_price history h = Ok p /\
    out !! i
    = Some (round_columns
              (add_scores
                 (core_metrics total_value h p (fundamentals_of info_of h)))).
Proof.
  intros Hout Hh.
  destruct (load_Ok_prices portfolio out Hout) as [prices Hp].
  destruct (apply_rows_lookup _ _ _ _ _ Hp Hh) as (p & Hpi & Hfp).
  destruct (scored_frame_lookup history info_of portfolio prices i h p Hp Hh Hpi)
    as (frame & Hframe & Hi).
  unfold load_and_process_portfolio in Hout. rewrite Hframe in Hout.
  cbn in Hout. injection Hout as <-.
  eexists _, p. split; [exact Hfp|].
  change (map round_columns frame) with (round_columns <$> frame).
  rewrite list_lookup_fmap, Hi. reflexivity.
Qed.

Lemma load_length (portfolio : list Holding) (out : list ScoredRow) :
  load_and_process_portfolio history info_of portfolio = Ok out ->
  length out = length portfolio.
Proof.
  intros Hout.
  pose proof (load_Ok_nonempty portfolio out Hout) as Hne.
  destruct (load_Ok_prices portfolio out Hout) as [prices Hp].
  unfold load_and_process_portfolio in Hout.
  rewrite (scored_frame_rows history info_of portfolio prices Hne Hp) in Hout.
  cbn in Hout. injection Hout as <-.
  rewrite !length_map, !length_zip_with, length_map.
  rewrite (apply_rows_length _ _ _ Hp). lia.
Qed.

(** The run returns a frame exactly when there is at least one holding and
    every holding's price resolves: fundamentals never stand in the way,
    and a holding list without rows never yields a frame. *)
Theorem load_succeeds_iff_priced (portfolio : list Holding) :
  (exists out, load_and_process_portfolio history info_of portfolio = Ok out)
  <-> portfolio <> [] /\
      Forall (fun h => exists p, fetch_price history h = Ok p) portfolio.
Proof.
  rewrite <- apply_rows_Ok_iff. split.
  - intros [out Hout]. split.
    + exact (load_Ok_nonempty portfolio out Hout).
    + exact (load_Ok_prices portfolio out Hout).
  - intros [Hne [prices Hp]]. exact (load_of_prices portfolio prices Hne Hp).
Qed.

(** On a holding list without rows the run raises ValueError at the
    assignment of the price column, before any price is fetched.  On any
    other list it raises [e] exactly when [e] is what the price of the first
    unpriced holding raised: every holding before it resolved, and nothing
    after it is looked at. *)
Theorem load_raises_first_failure (portfolio : list Holding) :
  (portfolio = [] ->
   exists msg,
     load_and_process_portfolio history info_of portfolio
     = Raise (ValueError msg)) /\
  (portfolio <> [] ->
   forall e : exn,
     load_and_process_portfolio history info_of portfolio = Raise e
     <-> exists pre h post,
           portfolio = (pre ++ h :: post)%list /\
           Forall (fun h' => exists p, fetch_price history h' = Ok p) pre /\
           fetch_price history h = Raise e).
Proof.
  split.
  - intros ->. eexists. reflexivity.
  - intros Hne e. rewrite (load_Raise_prices portfolio e Hne).
    apply apply_rows_Raise_iff.
Qed.

(** A frame that is returned has one row per holding, in the order of the
    input, and each row keeps the asset type, ticker and cost basis of its
    holding. *)
Theorem load_keeps_holdings (portfolio : list Holding) (out : list ScoredRow) :
  load_and_process_portfolio history info_of portfolio = Ok out ->
  length out = length portfolio /\
  forall (i : nat) (h : Holding),
    portfolio !! i = Some h ->
    exists sr,
      out !! i = Some sr /\
      asset_type (holding (row sr)) = asset_type h /\
      ticker (holding (row sr)) = ticker h /\
      cost_basis (holding (row sr)) = cost_basis h.
Proof.
  intros Hout. split; [exact (load_length portfolio out Hout)|].
  intros i h Hh.
  destruct (load_lookup portfolio out i h Hout Hh) as (tv & p & _ & Hi).
  eexists. split; [exact Hi|]. repeat split.
Qed.

(** Every reported row carries a score between -3 and 2 and the label of
    that score, one of the five. *)
Theorem load_rows_labelled (portfolio : list Holding) (out : list ScoredRow)
    (sr : ScoredRow) :
  load_and_process_portfolio history info_of portfolio = Ok out ->
  sr ∈ out ->
  (-3 <= score sr <= 2)%Z /\
  decision sr = decision_label (score sr) /\
  decision sr ∈ five_labels.
Proof.
  intros Hout Hin.
  apply list_elem_of_lookup in Hin as [i Hi].
  assert (Hlt : (i < length portfolio)%nat).
  { rewrite <- (load_length portfolio out Hout). eapply lookup_lt_Some, Hi. }
  destruct (lookup_lt_is_Some_2 portfolio i Hlt) as [h Hh].
  destruct (load_lookup portfolio out i h Hout Hh) as (tv & p & _ & Hi').
  rewrite Hi in Hi'. injection Hi' as ->.
  cbn [round_columns add_scores score decision].
  split; [apply score_position_bounds|].
  split; [reflexivity|apply decision_label_in_five].
Qed.

(** A holding that is not a stock is never given a buy label: its score is
    at most 0 and its label is "Review", "Trim" or "Sell". *)
Theorem non_stock_never_buy (portfolio : list Holding) (out : list ScoredRow)
    (i : nat) (h : Holding) :
  load_and_process_portfolio history info_of portfolio = Ok out ->
  portfolio !! i = Some h ->
  lower (asset_type h) <> "stock"%string ->
  exists sr,
    out !! i = Some sr /\
    (score sr <= 0)%Z /\
    decision sr ∈ ["Review"%string; "Trim"%string; "Sell"%string].
Proof.
  intros Hout Hh Hns.
  destruct (load_lookup portfolio out i h Hout Hh) as (tv & p & _ & Hi).
  eexists. split; [exact Hi|].
  cbn [round_columns add_scores score decision].
  apply no_fundamentals_no_buy. cbn [core_metrics fund].
  unfold fundamentals_of.
  rewrite (safe_fundamentals_non_stock info_of h Hns). reflexivity.
Qed.

End Run.

(** ** Prices that need no quote, and prices that do *)

Lemma fetch_price_cd_bond (history : string -> result (option pyfloat))
    (h : Holding) :
  lower (asset_type h) = "cd"%string \/ lower (asset_type h) = "bond"%string ->
  fetch_price history h = Ok (fetch_cd_price h).
Proof.
  intros [E|E]; unfold fetch_price; rewrite E; reflexivity.
Qed.

(** The price of a CD, a bond or cash is settled without any quote: it is
    the same under every market oracle, and it is never an exception. *)
Theorem fetch_price_offline
    (history1 history2 : string -> result (option pyfloat)) (h : Holding) :
  lower (asset_type h) ∈ ["cd"%string; "bond"%string; "cash"%string] ->
  fetch_price history1 h = fetch_price history2 h /\
  exists p, fetch_price history1 h = Ok p.
Proof.
  intros Hin. unfold fetch_price.
  repeat (apply elem_of_cons in Hin as [->|Hin]);
    [cbn; eauto..|inversion Hin].
Qed.

Lemma fetch_price_offline_witness :
  fetch_price no_history free_cash
  = fetch_price (fun _ => Raise (LibraryError "offline")) free_cash /\
  exists p, fetch_price no_history free_cash = Ok p.
Proof.
  apply (fetch_price_offline no_history
           (fun _ => Raise (LibraryError "offline")) free_cash).
  vm_compute. set_solver.
Defined.

(** ** Holdings carried at cost *)

Lemma rint_zero (q : Q) : q == 0 -> rint q = 0%Z.
Proof.
  intros Hq. destruct q as [n d]. unfold Qeq in Hq. cbn in Hq.
  assert (n = 0%Z) as -> by lia. reflexivity.
Qed.

Lemma round_dec_zero (d : nat) (q : Q) : q == 0 -> round_dec d q == 0.
Proof.
  intros Hq. unfold round_dec. rewrite rint_zero.
  - unfold Qdiv. ring.
  - rewrite Hq. ring.
Qed.

(** A percentage computed from a zero dividend is zero or NaN: it passes
    neither the test for a large gain nor the test for a large loss. *)
Lemma flat_pct_inert (d c : Q) :
  d == 0 ->
  let pct := fmul (fdiv (Fin d) (Fin c)) (Fin 100) in
  fgt pct (Fin 80) = false /\ flt pct (Fin (-20)) = false.
Proof.
  intros Hd. cbn zeta. cbn [fdiv].
  destruct (Qeq_bool c 0) eqn:Hc.
  - unfold signed_inf.
    assert (Hz : Qeq_bool d 0 = true) by (apply Qeq_bool_iff; exact Hd).
    rewrite Hz. split; reflexivity.
  - apply Qeq_bool_neq in Hc. cbn [fmul fgt flt].
    assert (E : d / c * 100 == 0) by (rewrite Hd; field; exact Hc).
    rewrite !Qltb_false, E. split; discriminate.
Qed.

(** The row of a holding without fundamentals whose price is its cost
    basis. *)
Lemma core_metrics_at_cost (tv : pyfloat) (h : Holding) (a c : Q) :
  shares h = Fin a ->
  cost_basis h = Fin c ->
  let r := core_metrics tv h (Fin c) empty_fundamentals in
  pl_dollar r = Fin (a * c + - (a * c)) /\
  (score_position r = 0%Z \/ score_position r = (-1)%Z) /\
  decision_label (score_position r) ∈ ["Review"%string; "Trim"%string] /\
  build_insight r ∈ ["Stable"%string; "High concentration"%string].
Proof.
  intros Hs Hc.
  assert (Hd : a * c + - (a * c) == 0) by ring.
  destruct (flat_pct_inert (a * c + - (a * c)) (a * c) Hd) as [Hgain Hloss].
  cbn zeta in Hgain, Hloss.
  unfold score_position, build_insight, append_if, core_metrics.
  rewrite Hs, Hc.
  cbn [pl_dollar pl_pct weight_pct fund empty_fundamentals pe forward_pe
       analyst_score and_then fmul fsub fadd fneg].
  rewrite Hgain, Hloss.
  split; [reflexivity|].
  destruct (fgt _ (Fin 7)); cbn.
  - split; [right; reflexivity|]. split; set_solver.
  - split; [left; reflexivity|]. split; set_solver.
Qed.

Section AtCost.

Variable history : string -> result (option pyfloat).
Variable info_of : string -> result (gmap string pyfloat).

(** A CD or bond other than the one with a known bid is priced at its cost
    basis, so its reported profit is zero; it scores 0 or -1 on its weight
    alone, is labelled "Review" or "Trim", and its insight is "Stable" or
    "High concentration".  The cost value is kept within 2^53 in size, the
    range in which neither an int64 product wraps nor a double product of
    integers loses a bit, so that the two products the program takes are
    the same number. *)
Theorem cd_at_cost_is_flat (portfolio : list Holding) (out : list ScoredRow)
    (i : nat) (h : Holding) (a c : Q) :
  load_and_process_portfolio history info_of portfolio = Ok out ->
  portfolio !! i = Some h ->
  lower (asset_type h) = "cd"%string \/ lower (asset_type h) = "bond"%string ->
  upper (ticker h) <> "BANKOFNY"%string ->
  shares h = Fin a ->
  cost_basis h = Fin c ->
  Qabs (a * c) <= inject_Z (2 ^ 53) ->
  exists sr d,
    out !! i = Some sr /\
    pl_dollar (row sr) = Fin d /\ d == 0 /\
    (score sr = 0%Z \/ score sr = (-1)%Z) /\
    decision sr ∈ ["Review"%string; "Trim"%string] /\
    insights sr ∈ ["Stable"%string; "High concentration"%string].
Proof.
  intros Hout Hh Htype Hticker Hs Hc _.
  destruct (load_lookup history info_of portfolio out i h Hout Hh)
    as (tv & p & Hp & Hi).
  rewrite (fetch_price_cd_bond history h Htype) in Hp.
  rewrite (fetch_cd_price_fallback h Hticker), Hc in Hp. injection Hp as <-.
  assert (Hns : lower (asset_type h) <> "stock"%string)
    by (destruct Htype as [E|E]; rewrite E; discriminate).
  assert (Hf : fundamentals_of info_of h = empty_fundamentals).
  { unfold fundamentals_of.
    rewrite (safe_fundamentals_non_stock info_of h Hns). reflexivity. }
  rewrite Hf in Hi.
  destruct (core_metrics_at_cost tv h a c Hs Hc) as (Hpd & Hscore & Hdec & Hins).
  cbn zeta in Hpd, Hscore, Hdec, Hins.
  eexists _, _. split; [exact Hi|].
  cbn [round_columns add_scores row pl_dollar score decision insights].
  rewrite Hpd. cbn [around].
  split; [reflexivity|].
  split; [apply round_dec_zero; ring|].
  split; [exact Hscore|]. split; [exact Hdec|exact Hins].
Qed.

End AtCost.

Lemma cd_at_cost_is_flat_witness :
  exists sr d,
    cash_and_cd_report !! 2%nat = Some sr /\
    pl_dollar (row sr) = Fin d /\ d == 0 /\
    (score sr = 0%Z \/ score sr = (-1)%Z) /\
    decision sr ∈ ["Review"%string; "Trim"%string] /\
    insights sr ∈ ["Stable"%string; "High concentration"%string].
Proof.
  apply (cd_at_cost_is_flat no_history no_info cash_and_cd _ 2
           (mkHolding "bond" "T2030" (Fin 3) (Fin 98.5)) 3 98.5).
  - vm_compute. reflexivity.
  - reflexivity.
  - right. reflexivity.
  - vm_compute. discriminate.
  - reflexivity.
  - reflexivity.
  - vm_compute. discriminate.
Defined.

Lemma load_keeps_holdings_witness :
  length cash_and_cd_report = length cash_and_cd /\
  forall (i : nat) (h : Holding),
    cash_and_cd !! i = Some h ->
    exists sr,
      cash_and_cd_report !! i = Some sr /\
      asset_type (holding (row sr)) = asset_type h /\
      ticker (holding (row sr)) = ticker h /\
      cost_basis (holding (row sr)) = cost_basis h.
Proof.
  apply (load_keeps_holdings no_history no_info cash_and_cd cash_and_cd_report).
  vm_compute. reflexivity.
Defined.

Lemma load_rows_labelled_witness :
  exists sr,
    cash_and_cd_report !! 1%nat = Some sr /\
    (-3 <= score sr <= 2)%Z /\
    decision sr = decision_label (score sr) /\
    decision sr ∈ five_labels.
Proof.
  eexists. split; [vm_compute; reflexivity|].
  apply (load_rows_labelled no_history no_info cash_and_cd cash_and_cd_report).
  - vm_compute. reflexivity.
  - apply list_elem_of_lookup. exists 1%nat. vm_compute. reflexivity.
Defined.

Lemma non_stock_never_buy_witness :
  exists sr,
    cash_and_cd_report !! 0%nat = Some sr /\
    (score sr <= 0)%Z /\
    decision sr ∈ ["Review"%string; "Trim"%string; "Sell"%string].
Proof.
  apply (non_stock_never_buy no_history no_info cash_and_cd cash_and_cd_report 0
           (mkHolding "cash" "USD" (Fin 250) (Fin 1))).
  - vm_compute. reflexivity.
  - reflexivity.
  - vm_compute. discriminate.
Defined.


(** ** Degenerate totals and missing prices *)

(** A positive total is the total of at least one holding. *)
Lemma positive_total_nonempty (portfolio : list Holding)
    (prices : list pyfloat) (T : Q) :
  sum_skipna (zip_with (fun h p => fmul (shares h) p) portfolio prices)
  = Fin T ->
  0 < T ->
  portfolio <> [].
Proof.
  intros Htot HT ->. cbn in Htot. injection Htot as <-. discriminate HT.
Qed.




Section Degenerate.

Variable history : string -> result (option pyfloat).
Variable info_of : string -> result (gmap string pyfloat).



End Degenerate.



(** ** The nine keys of the info dictionary *)

Lemma info_keys_agree (info1 info2 : gmap string pyfloat) :
  (forall k, k ∈ info_keys -> info1 !! k = info2 !! k) ->
  info1 !! "trailingPE"%string = info2 !! "trailingPE"%string /\
  info1 !! "forwardPE"%string = info2 !! "forwardPE"%string /\
  info1 !! "priceToSalesTrailing12Months"%string
  = info2 !! "priceToSalesTrailing12Months"%string /\
  info1 !! "profitMargins"%string = info2 !! "profitMargins"%string /\
  info1 !! "revenueGrowth"%string = info2 !! "revenueGrowth"%string /\
  info1 !! "earningsQuarterlyGrowth"%string
  = info2 !! "earningsQuarterlyGrowth"%string /\
  info1 !! "beta"%string = info2 !! "beta"%string /\
  info1 !! "recommendationMean"%string = info2 !! "recommendationMean"%string /\
  info1 !! "targetMeanPrice"%string = info2 !! "targetMeanPrice"%string.
Proof.
  intros H. repeat split; apply H; unfold info_keys; set_solver.
Qed.

(** The fundamentals of a stock depend on nine keys of its info dictionary
    and on nothing else in it; a dictionary that has none of the nine gives
    the same all-[None] record as a fetch that raised. *)
Theorem fundamentals_read_nine_keys
    (info_of1 info_of2 : string -> result (gmap string pyfloat))
    (t : string) (info1 info2 : gmap string pyfloat) :
  info_of1 t = Ok info1 ->
  info_of2 t = Ok info2 ->
  (forall k, k ∈ info_keys -> info1 !! k = info2 !! k) ->
  fetch_fundamentals info_of1 t = fetch_fundamentals info_of2 t /\
  ((forall k, k ∈ info_keys -> info1 !! k = None) ->
   fetch_fundamentals info_of1 t = Ok empty_fundamentals).
Proof.
  intros H1 H2 Hagree. unfold fetch_fundamentals. rewrite H1, H2. cbn.
  split.
  - destruct (info_keys_agree info1 info2 Hagree)
      as (-> & -> & -> & -> & -> & -> & -> & -> & ->).
    reflexivity.
  - intros Hnone.
    assert (Hempty : forall k, k ∈ info_keys -> info1 !! k = (∅ : gmap string pyfloat) !! k)
      by (intros k Hk; rewrite (Hnone k Hk), lookup_empty; reflexivity).
    destruct (info_keys_agree info1 ∅ Hempty)
      as (-> & -> & -> & -> & -> & -> & -> & -> & ->).
    rewrite !lookup_empty. reflexivity.
Qed.

Lemma fundamentals_read_nine_keys_witness :
  fetch_fundamentals (fun _ => Ok (<["sector" := Fin 3]> ∅)) "ACME"
  = fetch_fundamentals (fun _ => Ok ∅) "ACME" /\
  fetch_fundamentals (fun _ => Ok (<["sector" := Fin 3]> ∅)) "ACME"
  = Ok empty_fundamentals.
Proof.
  assert (H : forall k, k ∈ info_keys ->
              (<["sector"%string := Fin 3]> ∅ : gmap string pyfloat) !! k
              = (∅ : gmap string pyfloat) !! k).
  { intros k Hk. apply lookup_insert_ne. intros <-.
    unfold info_keys in Hk.
    repeat (apply elem_of_cons in Hk as [Hk|Hk]; [discriminate Hk|]).
    inversion Hk. }
  destruct (fundamentals_read_nine_keys
              (fun _ => Ok (<["sector"%string := Fin 3]> ∅)) (fun _ => Ok ∅)
              "ACME" (<["sector"%string := Fin 3]> ∅) ∅ eq_refl eq_refl H)
    as [Hsame Hnone].
  split; [exact Hsame|].
  apply Hnone. intros k Hk. rewrite (H k Hk). apply lookup_empty.
Defined.

(** ** What the table shows *)

Section Shown.

Variable str_of_float : pyfloat -> string.

Lemma fillna_not_nan (x : pyfloat) : fillna x <> CNum NaN.
Proof. destruct x; cbn; discriminate. Qed.

(** In a displayed row the nine fundamentals columns keep their names and
    order; a [None] or NaN cell is shown as the empty string; a row that is
    not a stock shows nine empty strings whatever its cells hold; and no
    numeric cell shows NaN. *)
Theorem format_row_blanks (sr : ScoredRow) :
  let d := format_row str_of_float sr in
  map fst (d_fund d) = fund_cols /\
  (forall (col : string) (v : pyval),
     (col, v) ∈ fund_items (fund (row sr)) ->
     v = None \/ v = Some NaN ->
     (col, ""%string) ∈ d_fund d) /\
  (lower (asset_type (holding (row sr))) <> "stock"%string ->
   d_fund d = map (fun col => (col, ""%string)) fund_cols) /\
  Forall (fun c => c <> CNum NaN)
    [ d_shares d; d_cost_basis d; d_current_price d; d_market_value d;
      d_cost_value d; d_pl_dollar d; d_pl_pct d; d_weight_pct d ].
Proof.
  cbn zeta. unfold format_row. cbn [d_fund d_shares d_cost_basis
    d_current_price d_market_value d_cost_value d_pl_dollar d_pl_pct
    d_weight_pct].
  split; [destruct (negb _); reflexivity|].
  split.
  { intros col v Hin Hv.
    assert (Ht : fund_text str_of_float v = ""%string)
      by (destruct Hv as [-> | ->]; reflexivity).
    destruct (negb _).
    - rewrite <- list_fmap_compose.
      apply list_elem_of_fmap. exists (col, v). split; [reflexivity|exact Hin].
    - apply list_elem_of_fmap. exists (col, v). cbn. rewrite Ht.
      split; [reflexivity|exact Hin]. }
  split.
  { intros Hns.
    destruct (String.eqb_spec (lower (asset_type (holding (row sr)))) "stock")
      as [E|_]; [contradiction|reflexivity]. }
  repeat constructor; apply fillna_not_nan.
Qed.

End Shown.

Lemma format_row_blanks_witness :
  d_fund (format_row (fun _ => "1.0"%string)
            (mkScoredRow
               (with_pe (Some (Fin 30))
                  (mkRow free_cash (Fin 1) (Fin 10) (Fin 0) (Fin 10) PInf
                     (Fin 100) empty_fundamentals))
               (-2) "Sell" "Large unrealized gain; High concentration"))
  = map (fun col => (col, ""%string)) fund_cols.
Proof.
  apply (format_row_blanks (fun _ => "1.0"%string)).
  vm_compute. discriminate.
Defined.

Lemma Qltb_asym (a b : Q) : Qltb a b = true -> Qltb b a = false.
Proof.
  rewrite Qltb_true, Qltb_false. apply Qlt_le_weak.
Qed.

(** The colour of a profit cell after [fillna]: green exactly for a value
    above zero, red exactly for a value below zero, and none for zero, for
    NaN, which reaches the callback as an empty string that [float] refuses,
    and for the empty string itself. *)
Theorem color_pl_fillna (x : pyfloat) :
  (color_pl (fillna x) = "background-color:#d8ffd8;"%string
   <-> fgt x (Fin 0) = true) /\
  (color_pl (fillna x) = "background-color:#ffd8d8;"%string
   <-> flt x (Fin 0) = true) /\
  (fgt x (Fin 0) = false -> flt x (Fin 0) = false ->
   color_pl (fillna x) = ""%string) /\
  color_pl (fillna NaN) = ""%string /\
  color_pl CBlank = ""%string.
Proof.
  destruct x as [q| | |]; cbn -[Qltb];
    try (repeat split; intros; try discriminate; reflexivity).
  pose proof (Qltb_asym 0 q) as Has.
  unfold color_pl, color_pl_try. cbn -[Qltb].
  destruct (Qltb 0 q); cbn -[Qltb].
  - rewrite (Has eq_refl).
    repeat split; intros; try discriminate; reflexivity.
  - destruct (Qltb q 0); cbn;
      repeat split; intros; try discriminate; reflexivity.
Qed.

(** Every label the engine can give has a colour of its own, and a cell
    that holds none of the five labels gets none. *)
Theorem color_decision_labels :
  (forall s : Z, color_decision (decision_label s) <> ""%string) /\
  (forall s1 s2 : Z,
     color_decision (decision_label s1) = color_decision (decision_label s2) ->
     decision_label s1 = decision_label s2) /\
  (forall val : string, val ∉ five_labels -> color_decision val = ""%string).
Proof.
  split; [|split].
  - intros s. unfold decision_label.
    destruct (s >=? 2)%Z; [discriminate|].
    destruct (s =? 1)%Z; [discriminate|].
    destruct (s =? 0)%Z; [discriminate|].
    destruct (s =? -1)%Z; discriminate.
  - intros s1 s2. unfold decision_label.
    destruct (s1 >=? 2)%Z; [|destruct (s1 =? 1)%Z; [|destruct (s1 =? 0)%Z;
      [|destruct (s1 =? -1)%Z]]];
    (destruct (s2 >=? 2)%Z; [|destruct (s2 =? 1)%Z; [|destruct (s2 =? 0)%Z;
      [|destruct (s2 =? -1)%Z]]]);
    cbn; intros H; try discriminate H; reflexivity.
  - intros val Hout. unfold color_decision, five_labels in *.
    repeat match goal with
           | |- context [String.eqb ?a ?b] =>
               destruct (String.eqb_spec a b) as [E|?];
               [exfalso; apply Hout; rewrite E; set_solver|]
           end.
    reflexivity.
Qed.

Lemma color_decision_labels_witness :
  decision_label 5 = decision_label 2 /\ color_decision "" = ""%string.
Proof.
  split.
  - apply (proj1 (proj2 color_decision_labels) 5%Z 2%Z). reflexivity.
  - apply (proj2 (proj2 color_decision_labels) ""%string).
    unfold five_labels. intros H.
    repeat (apply elem_of_cons in H as [H|H]; [discriminate H|]).
    inversion H.
Defined.

(** ** The slices of the insights route *)

Lemma decision_isin_spec (labels : list string) (df : list ScoredRow)
    (sr : ScoredRow) :
  sr ∈ decision_isin labels df <-> sr ∈ df /\ decision sr ∈ labels.
Proof.
  unfold decision_isin. rewrite list_elem_of_filter. tauto.
Qed.

Lemma elem_of_take_5 (l : list ScoredRow) (sr : ScoredRow) :
  sr ∈ take 5 l -> sr ∈ l.
Proof.
  intros H. apply list_elem_of_lookup in H as [i Hi].
  apply lookup_take_Some in Hi as [Hi _].
  apply list_elem_of_lookup. eauto.
Qed.

Section SliceFacts.

Variable sort_float_desc :
  (ScoredRow -> pyfloat) -> list ScoredRow -> list ScoredRow.
Variable sort_int_desc :
  (ScoredRow -> Z) -> list ScoredRow -> list ScoredRow.

(** Sorting rearranges the rows it is given and does nothing else. *)
Hypothesis sort_float_desc_perm :
  forall key l, sort_float_desc key l ≡ₚ l.
Hypothesis sort_int_desc_perm :
  forall key l, sort_int_desc key l ≡ₚ l.

(** The trim slice lists at most five rows of the frame, each labelled
    "Trim" or "Sell"; the buy slice lists at most five, each labelled
    "Strong Buy" or "Buy / Hold"; no row is in both. *)
Theorem trims_and_buys (df : list ScoredRow) :
  (forall sr, sr ∈ trims sort_float_desc df ->
     sr ∈ df /\ decision sr ∈ ["Trim"%string; "Sell"%string]) /\
  (forall sr, sr ∈ buys sort_int_desc df ->
     sr ∈ df /\ decision sr ∈ ["Strong Buy"%string; "Buy / Hold"%string]) /\
  (length (trims sort_float_desc df) <= 5)%nat /\
  (length (buys sort_int_desc df) <= 5)%nat /\
  (forall sr, sr ∈ trims sort_float_desc df -> sr ∉ buys sort_int_desc df).
Proof.
  assert (Ht : forall sr, sr ∈ trims sort_float_desc df ->
                 sr ∈ df /\ decision sr ∈ ["Trim"%string; "Sell"%string]).
  { intros sr H. apply elem_of_take_5 in H.
    rewrite sort_float_desc_perm in H. apply decision_isin_spec, H. }
  assert (Hb : forall sr, sr ∈ buys sort_int_desc df ->
                 sr ∈ df /\
                 decision sr ∈ ["Strong Buy"%string; "Buy / Hold"%string]).
  { intros sr H. apply elem_of_take_5 in H.
    rewrite sort_int_desc_perm in H. apply decision_isin_spec, H. }
  split; [exact Ht|]. split; [exact Hb|].
  split; [unfold trims; rewrite length_take; lia|].
  split; [unfold buys; rewrite length_take; lia|].
  intros sr H1 H2. destruct (Ht sr H1) as [_ Hd1]. destruct (Hb sr H2) as [_ Hd2].
  repeat (apply elem_of_cons in Hd1 as [Hd1|Hd1];
          [rewrite Hd1 in Hd2;
           repeat (apply elem_of_cons in Hd2 as [Hd2|Hd2]; [discriminate Hd2|]);
           inversion Hd2|]).
  inversion Hd1.
Qed.

(** A slice drops rows only when more than five qualify: with at most five
    rows labelled "Trim" or "Sell" the trim slice shows them all, likewise
    the buy slice, and on a frame of at most five rows the concentration and
    movers slices show the whole frame.  The last two always have
    min(5, number of rows) rows. *)
Theorem slices_complete (df : list ScoredRow) :
  ((length (decision_isin ["Trim"%string; "Sell"%string] df) <= 5)%nat ->
   trims sort_float_desc df ≡ₚ decision_isin ["Trim"%string; "Sell"%string] df) /\
  ((length (decision_isin ["Strong Buy"%string; "Buy / Hold"%string] df) <= 5)%nat ->
   buys sort_int_desc df
   ≡ₚ decision_isin ["Strong Buy"%string; "Buy / Hold"%string] df) /\
  ((length df <= 5)%nat ->
   concentration sort_float_desc df ≡ₚ df /\ movers sort_float_desc df ≡ₚ df) /\
  length (concentration sort_float_desc df) = Nat.min 5 (length df) /\
  length (movers sort_float_desc df) = Nat.min 5 (length df).
Proof.
  split; [|split; [|split; [|split]]].
  - intros H. unfold trims. rewrite take_ge; [apply sort_float_desc_perm|].
    rewrite (Permutation_length (sort_float_desc_perm _ _)). exact H.
  - intros H. unfold buys. rewrite take_ge; [apply sort_int_desc_perm|].
    rewrite (Permutation_length (sort_int_desc_perm _ _)). exact H.
  - intros H. unfold concentration, movers.
    rewrite !take_ge;
      [split; apply sort_float_desc_perm|
       rewrite (Permutation_length (sort_float_desc_perm _ _)); exact H..].
  - unfold concentration. rewrite length_take.
    rewrite (Permutation_length (sort_float_desc_perm _ _)). reflexivity.
  - unfold movers. rewrite length_take.
    rewrite (Permutation_length (sort_float_desc_perm _ _)). reflexivity.
Qed.

Variable history : string -> result (option pyfloat).
Variable info_of : string -> result (gmap string pyfloat).

(** The buy slice of a run lists stocks only. *)
Theorem buys_only_stocks (portfolio : list Holding) (out : list ScoredRow)
    (sr : ScoredRow) :
  load_and_process_portfolio history info_of portfolio = Ok out ->
  sr ∈ buys sort_int_desc out ->
  lower (asset_type (holding (row sr))) = "stock"%string.
Proof.
  intros Hout Hin.
  apply elem_of_take_5 in Hin. rewrite sort_int_desc_perm in Hin.
  apply decision_isin_spec in Hin as [Hin Hd].
  apply list_elem_of_lookup in Hin as [i Hi].
  assert (Hlt : (i < length portfolio)%nat).
  { rewrite <- (load_length history info_of portfolio out Hout).
    eapply lookup_lt_Some, Hi. }
  destruct (lookup_lt_is_Some_2 portfolio i Hlt) as [h Hh].
  destruct (load_lookup history info_of portfolio out i h Hout Hh)
    as (tv & p & _ & Hi').
  rewrite Hi in Hi'. injection Hi' as ->.
  cbn [round_columns add_scores row holding asset_type core_metrics].
  destruct (decide (lower (asset_type h) = "stock"%string)) as [E|Hns];
    [exact E|exfalso].
  cbn [round_columns add_scores decision] in Hd.
  assert (Hf : fund (core_metrics tv h p (fundamentals_of info_of h))
               = empty_fundamentals).
  { cbn [core_metrics fund]. unfold fundamentals_of.
    rewrite (safe_fundamentals_non_stock info_of h Hns). reflexivity. }
  destruct (no_fundamentals_no_buy _ Hf) as [_ Hlab].
  repeat (apply elem_of_cons in Hlab as [Hlab|Hlab];
          [rewrite Hlab in Hd;
           repeat (apply elem_of_cons in Hd as [Hd|Hd]; [discriminate Hd|]);
           inversion Hd|]).
  inversion Hlab.
Qed.

End SliceFacts.

Lemma merge_sort_float_desc_perm (key : ScoredRow -> pyfloat)
    (l : list ScoredRow) :
  merge_sort_float_desc key l ≡ₚ l.
Proof. apply merge_sort_Permutation. Qed.

Lemma merge_sort_int_desc_perm (key : ScoredRow -> Z) (l : list ScoredRow) :
  merge_sort_int_desc key l ≡ₚ l.
Proof. apply merge_sort_Permutation. Qed.

Lemma trims_and_buys_witness :
  (length (trims merge_sort_float_desc cash_and_stock_report) <= 5)%nat /\
  (length (buys merge_sort_int_desc cash_and_stock_report) <= 5)%nat.
Proof.
  pose proof (trims_and_buys merge_sort_float_desc merge_sort_int_desc
                merge_sort_float_desc_perm merge_sort_int_desc_perm
                cash_and_stock_report) as (_ & _ & Ht & Hb & _).
  split; [exact Ht|exact Hb].
Defined.

Lemma slices_complete_witness :
  buys merge_sort_int_desc cash_and_stock_report
  ≡ₚ decision_isin ["Strong Buy"%string; "Buy / Hold"%string]
       cash_and_stock_report /\
  concentration merge_sort_float_desc cash_and_stock_report
  ≡ₚ cash_and_stock_report.
Proof.
  pose proof (slices_complete merge_sort_float_desc merge_sort_int_desc
                merge_sort_float_desc_perm merge_sort_int_desc_perm
                cash_and_stock_report) as (_ & Hb & Hc & _).
  split.
  - apply Hb. vm_compute. lia.
  - apply Hc. vm_compute. lia.
Defined.

Lemma buys_only_stocks_witness :
  exists sr,
    buys merge_sort_int_desc cash_and_stock_report !! 0%nat = Some sr /\
    lower (asset_type (holding (row sr))) = "stock"%string.
Proof.
  eexists. split; [vm_compute; reflexivity|].
  apply (buys_only_stocks merge_sort_int_desc merge_sort_int_desc_perm
           acme_history acme_info cash_and_stock cash_and_stock_report).
  - vm_compute. reflexivity.
  - apply list_elem_of_lookup. exists 0%nat. vm_compute. reflexivity.
Defined.

Example cash_and_stock_buys :
  map (fun sr => (ticker (holding (row sr)), decision sr))
    (buys merge_sort_int_desc cash_and_stock_report)
  = [("ACME"%string, "Buy / Hold"%string)].
Proof. vm_compute. reflexivity. Qed.

(** ** Concentration *)

(** The insight is "Stable" exactly when none of its five tests holds. *)
Theorem stable_iff (row : Row) :
  build_insight row = "Stable"%string <->
  fgt (pl_pct row) (Fin 80) = false /\
  flt (pl_pct row) (Fin (-20)) = false /\
  fgt (weight_pct row) (Fin 7) = false /\
  and_then (pe (fund row)) (fun x => fgt x (Fin 40)) = false /\
  and_then (analyst_score (fund row)) (fun x => flt x (Fin 2)) = false.
Proof.
  unfold build_insight, append_if.
  destruct (fgt (pl_pct row) (Fin 80));
    destruct (flt (pl_pct row) (Fin (-20)));
    destruct (fgt (weight_pct row) (Fin 7));
    destruct (and_then (pe (fund row)) _);
    destruct (and_then (analyst_score (fund row)) _);
    cbn; split; intros H; try discriminate H;
    try (repeat split; reflexivity);
    try (destruct H as (H1 & H2 & H3 & H4 & H5); discriminate).
Qed.

(** A row whose weight is above 7 is neither "Stable" nor a "Strong Buy". *)
Lemma weight_flag_effects (row : Row) :
  fgt (weight_pct row) (Fin 7) = true ->
  build_insight row <> "Stable"%string /\
  decision_label (score_position row) <> "Strong Buy"%string.
Proof.
  intros Hw. unfold build_insight, score_position, append_if. rewrite Hw.
  destruct (fgt (pl_pct row) (Fin 80));
    destruct (flt (pl_pct row) (Fin (-20)));
    destruct (and_then (pe (fund row)) _);
    destruct (and_then (analyst_score (fund row)) (fun x => flt x (Fin 2)));
    destruct (and_then (forward_pe (fund row)) _);
    destruct (and_then (analyst_score (fund row)) _);
    cbn; split; discriminate.
Qed.

Lemma Qsum_le_bound (b : Q) (ws : list Q) :
  Forall (fun w => w <= b) ws ->
  Qsum ws <= inject_Z (Z.of_nat (length ws)) * b.
Proof.
  induction 1 as [|w ws Hw _ IH].
  - cbn. discriminate.
  - cbn [length]. rewrite Nat2Z.inj_succ. unfold Z.succ.
    rewrite inject_Z_plus. unfold Qsum in *. cbn [fold_right].
    assert (E : (inject_Z (Z.of_nat (length ws)) + inject_Z 1) * b
                == b + inject_Z (Z.of_nat (length ws)) * b) by ring.
    rewrite E. apply Qplus_le_compat; assumption.
Qed.

(** Among at most fourteen numbers that sum to 100, one exceeds 7. *)
Lemma some_weight_above_7 (ws : list Q) :
  Qsum ws == 100 -> (length ws <= 14)%nat -> Exists (fun w => 7 < w) ws.
Proof.
  intros Hsum Hlen.
  assert (Hdec : Forall (fun w => w <= 7) ws \/ Exists (fun w => 7 < w) ws).
  { clear. induction ws as [|w ws [IH|IH]].
    - left. constructor.
    - destruct (Qlt_le_dec 7 w) as [Hlt|Hle].
      + right. constructor. exact Hlt.
      + left. constructor; assumption.
    - right. apply Exists_cons_tl. exact IH. }
  destruct Hdec as [Hall|H]; [exfalso|exact H].
  pose proof (Qsum_le_bound 7 ws Hall) as Hb. rewrite Hsum in Hb.
  assert (Hn : inject_Z (Z.of_nat (length ws)) * 7 <= 98).
  { change 98 with (inject_Z 14 * 7). apply Qmult_le_compat_r; [|discriminate].
    rewrite <- Zle_Qle. lia. }
  pose proof (Qle_trans _ _ _ Hb Hn) as Habs. apply Habs. reflexivity.
Qed.

Section Concentration.

Variable history : string -> result (option pyfloat).
Variable info_of : string -> result (gmap string pyfloat).

(** A priced portfolio of at most fourteen holdings with a positive total
    always holds a position above 7 percent: some row of the frame passes
    the concentration test, so its insight is not "Stable" and its label is
    not "Strong Buy". *)
Theorem small_portfolio_concentrated (portfolio : list Holding)
    (prices : list pyfloat) (T : Q) :
  apply_rows (fetch_price history) portfolio = Ok prices ->
  Forall (fun h => is_finite (shares h) = true) portfolio ->
  Forall (fun p => is_finite p = true) prices ->
  sum_skipna (zip_with (fun h p => fmul (shares h) p) portfolio prices)
  = Fin T ->
  0 < T ->
  (length portfolio <= 14)%nat ->
  exists frame sr,
    scored_frame history info_of portfolio = Ok frame /\
    sr ∈ frame /\
    fgt (weight_pct (row sr)) (Fin 7) = true /\
    insights sr <> "Stable"%string /\
    decision sr <> "Strong Buy"%string.
Proof.
  intros Hp Hshares Hprices Htot HT Hlen.
  pose proof (scored_frame_rows history info_of portfolio prices
                (positive_total_nonempty portfolio prices T Htot HT) Hp)
    as Hframe.
  cbn zeta in Hframe. rewrite Htot in Hframe.
  destruct (finite_column _ (market_values_finite _ _ Hshares Hprices))
    as [qs Hqs].
  assert (Hlq : length qs = length portfolio).
  { rewrite <- (length_map Fin qs), <- Hqs, length_zip_with.
    rewrite (apply_rows_length _ _ _ Hp). lia. }
  rewrite Hqs, sum_skipna_Fin in Htot. injection Htot as HTq.
  assert (Hsum : Qsum qs == T) by (rewrite <- HTq, fold_left_Qplus; ring).
  pose proof (Qsum_weights T qs HT Hsum) as H100.
  assert (Hex : Exists (fun w => 7 < w) (map (fun a => a / T * 100) qs)).
  { apply some_weight_above_7; [exact H100|rewrite length_map; lia]. }
  apply Exists_exists in Hex as (w & Hw & Hw7).
  apply list_elem_of_lookup in Hw as [i Hi].
  set (frame := map add_scores
                  (zip_with (fun hp f => core_metrics (Fin T) hp.1 hp.2 f)
                     (zip portfolio prices)
                     (map (fundamentals_of info_of) portfolio))) in *.
  assert (Hcol : map (fun sr => weight_pct (row sr)) frame
                 = map Fin (map (fun a => a / T * 100) qs)).
  { unfold frame. rewrite weight_column;
      [|apply (apply_rows_length _ _ _ Hp)|apply length_map].
    rewrite Hqs. apply weights_of_finite, HT. }
  assert (Hwi : map (fun sr => weight_pct (row sr)) frame !! i = Some (Fin w)).
  { rewrite Hcol. change (map Fin ?l) with (Fin <$> l).
    rewrite list_lookup_fmap, Hi. reflexivity. }
  change (map ?f frame) with (f <$> frame) in Hwi.
  rewrite list_lookup_fmap in Hwi.
  destruct (frame !! i) as [sr|] eqn:Hsr; [|discriminate Hwi].
  cbn in Hwi. injection Hwi as Hwsr.
  assert (Hflag : fgt (weight_pct (row sr)) (Fin 7) = true).
  { rewrite Hwsr. cbn. apply Qltb_true. exact Hw7. }
  exists frame, sr. split; [exact Hframe|].
  split; [apply list_elem_of_lookup; eauto|].
  split; [exact Hflag|].
  unfold frame in Hsr. change (map add_scores ?l) with (add_scores <$> l) in Hsr.
  rewrite list_lookup_fmap in Hsr.
  destruct (zip_with _ _ _ !! i) as [r|]; [|discriminate Hsr].
  cbn in Hsr. injection Hsr as <-.
  cbn [add_scores insights decision row] in *.
  apply weight_flag_effects. exact Hflag.
Qed.

End Concentration.

Lemma small_portfolio_concentrated_witness :
  exists frame sr,
    scored_frame no_history no_info cash_and_cd = Ok frame /\
    sr ∈ frame /\
    fgt (weight_pct (row sr)) (Fin 7) = true /\
    insights sr <> "Stable"%string /\
    decision sr <> "Strong Buy"%string.
Proof.
  eapply (small_portfolio_concentrated no_history no_info cash_and_cd).
  - vm_compute. reflexivity.
  - repeat constructor.
  - repeat constructor.
  - vm_compute. reflexivity.
  - reflexivity.
  - cbn. lia.
Defined.


(** ** Scores and the order of the holdings *)

Section Order.

Variable history : string -> result (option pyfloat).
Variable info_of : string -> result (gmap string pyfloat).



End Order.



Lemma load_raises_first_failure_witness :
  (exists msg,
     load_and_process_portfolio no_history no_info [] = Raise (ValueError msg)) /\
  load_and_process_portfolio no_history no_info cash_and_stock
  = Raise (ValueError "No price data returned for STOCK ACME").
Proof.
  split.
  - apply (proj1 (load_raises_first_failure no_history no_info [])).
    reflexivity.
  - apply (proj2 (load_raises_first_failure no_history no_info cash_and_stock)).
    + discriminate.
    + exists [mkHolding "cash" "USD" (Fin 250) (Fin 1)],
             (mkHolding "stock" "ACME" (Fin 3) (Fin 10)), [].
      split; [reflexivity|]. split; [|reflexivity].
      constructor; [|constructor]. eexists. reflexivity.
Defined.
